(** * Laboratory API: a shallow embedding of [main.py] and [schemas.py]

    The development follows the layers of the service, leaves first:
    the digest used for password hashes, tokens and payment references
    ([hashlib.sha256]), BSON values and documents, the normalizer
    [to_str_id], the pydantic schemas, the document store, and the
    request handlers. *)

From Stdlib Require Import ZArith Ascii String List Floats.SpecFloat.
From stdpp Require Import base option list strings gmap fin_maps.

(** ** SHA-256 ([from hashlib import sha256])

    Words are 32-bit unsigned integers carried in [Z]; every addition
    is reduced modulo [2^32]. A Python [str] is represented by the
    sequence of its UTF-8 bytes, so that [s.encode()] is the list of
    the characters' codes. *)
Module SHA256.
Local Open Scope Z_scope.

Definition w32 (x : Z) : Z := x mod 2 ^ 32.

Definition add32 (x y : Z) : Z := w32 (x + y).

Definition rotr (n x : Z) : Z :=
  Z.lor (Z.shiftr x n) (w32 (Z.shiftl x (32 - n))).

Definition not32 (x : Z) : Z := Z.lxor x (2 ^ 32 - 1).

Definition Ch (x y z : Z) : Z :=
  Z.lxor (Z.land x y) (Z.land (not32 x) z).

Definition Maj (x y z : Z) : Z :=
  Z.lxor (Z.lxor (Z.land x y) (Z.land x z)) (Z.land y z).

Definition bsig0 (x : Z) : Z :=
  Z.lxor (Z.lxor (rotr 2 x) (rotr 13 x)) (rotr 22 x).

Definition bsig1 (x : Z) : Z :=
  Z.lxor (Z.lxor (rotr 6 x) (rotr 11 x)) (rotr 25 x).

Definition ssig0 (x : Z) : Z :=
  Z.lxor (Z.lxor (rotr 7 x) (rotr 18 x)) (Z.shiftr x 3).

Definition ssig1 (x : Z) : Z :=
  Z.lxor (Z.lxor (rotr 17 x) (rotr 19 x)) (Z.shiftr x 10).

(** The round constants are the first 32 fractional bits of the cube
    roots of the first 64 primes, the initial state those of the
    square roots of the first 8 primes. They are computed here rather
    than tabulated. *)
Definition is_prime (n : nat) : bool :=
  forallb (fun d => negb (Nat.eqb (n mod d) 0)) (seq 2 (n - 2)).

Definition primes64 : list Z :=
  Eval vm_compute in
    map Z.of_nat (filter (fun n => Is_true (is_prime n)) (seq 2 310)).

(** Largest [r] below [2^bits] with [r^3 <= n]. *)
Fixpoint icbrt (bits : nat) (n r : Z) : Z :=
  match bits with
  | O => r
  | S b =>
      let r' := r + 2 ^ Z.of_nat b in
      icbrt b n (if r' * r' * r' <=? n then r' else r)
  end.

Definition K : list Z :=
  Eval vm_compute in
    map (fun p => w32 (icbrt 40 (p * 2 ^ 96) 0)) primes64.

Definition H0 : list Z :=
  Eval vm_compute in
    map (fun p => w32 (Z.sqrt (p * 2 ^ 64))) (take 8 primes64).

(** Padding: a [0x80] byte, zeros up to 56 modulo 64, then the bit
    length as a big-endian 64-bit integer. *)
Definition be_bytes (n : nat) (x : Z) : list Z :=
  map (fun i => Z.shiftr x (8 * Z.of_nat i) mod 256) (rev (seq 0 n)).

Definition pad (msg : list Z) : list Z :=
  let len := Z.of_nat (length msg) in
  msg ++ [128] ++ repeat 0 (Z.to_nat ((55 - len) mod 64))
      ++ be_bytes 8 (8 * len).

Definition be_word (bs : list Z) : Z :=
  fold_left (fun acc b => acc * 256 + b) bs 0.

(** [group n fuel l] cuts [l] into consecutive pieces of [n] items. *)
Fixpoint group {A} (n fuel : nat) (l : list A) : list (list A) :=
  match fuel, l with
  | O, _ | _, [] => []
  | S f, _ => take n l :: group n f (drop n l)
  end.

Definition blocks (bytes : list Z) : list (list Z) :=
  group 16 (length bytes) (map be_word (group 4 (length bytes) bytes)).

(** Message schedule: a sliding window over the last 16 words. *)
Definition next_w (win : list Z) : Z :=
  add32 (add32 (ssig1 (nth 14 win 0)) (nth 9 win 0))
        (add32 (ssig0 (nth 1 win 0)) (nth 0 win 0)).

Fixpoint extend (n : nat) (win : list Z) : list Z :=
  match n with
  | O => []
  | S n' => let w := next_w win in w :: extend n' (drop 1 win ++ [w])
  end.

Definition schedule (block : list Z) : list Z := block ++ extend 48 block.

Record state := State { sa : Z; sb : Z; sc : Z; sd : Z;
                        se : Z; sf : Z; sg : Z; sh : Z }.

Definition round (s : state) (kw : Z * Z) : state :=
  let '(State a b c d e f g h) := s in
  let t1 := add32 (add32 (add32 h (bsig1 e)) (Ch e f g))
                  (add32 (fst kw) (snd kw)) in
  let t2 := add32 (bsig0 a) (Maj a b c) in
  State (add32 t1 t2) a b c (add32 d t1) e f g.

Definition compress (s : state) (block : list Z) : state :=
  let '(State a b c d e f g h) :=
    fold_left round (combine K (schedule block)) s in
  State (add32 (sa s) a) (add32 (sb s) b) (add32 (sc s) c) (add32 (sd s) d)
        (add32 (se s) e) (add32 (sf s) f) (add32 (sg s) g) (add32 (sh s) h).

Definition init : state :=
  State (nth 0 H0 0) (nth 1 H0 0) (nth 2 H0 0) (nth 3 H0 0)
        (nth 4 H0 0) (nth 5 H0 0) (nth 6 H0 0) (nth 7 H0 0).

Definition digest (msg : list Z) : state :=
  fold_left compress (blocks (pad msg)) init.

(** [hexdigest()]: eight lowercase hexadecimal digits per word. *)
Definition hex_digit (n : Z) : ascii :=
  nth (Z.to_nat (n mod 16))
      (list_ascii_of_string "0123456789abcdef") "0"%char.

Definition hex8 (w : Z) (rest : string) : string :=
  String (hex_digit (Z.shiftr w 28)) (String (hex_digit (Z.shiftr w 24))
 (String (hex_digit (Z.shiftr w 20)) (String (hex_digit (Z.shiftr w 16))
 (String (hex_digit (Z.shiftr w 12)) (String (hex_digit (Z.shiftr w 8))
 (String (hex_digit (Z.shiftr w 4)) (String (hex_digit w) rest))))))).

Definition hex_of_state (s : state) : string :=
  let '(State a b c d e f g h) := s in
  hex8 a (hex8 b (hex8 c (hex8 d (hex8 e (hex8 f (hex8 g (hex8 h ""))))))).

Definition encode (s : string) : list Z :=
  map (fun c => Z.of_N (N_of_ascii c)) (list_ascii_of_string s).

(** [sha256(s.encode()).hexdigest()] *)
Definition hexdigest (s : string) : string := hex_of_state (digest (encode s)).

End SHA256.


(** ** Values and documents

    A stored document is a Python [dict] from field names to BSON
    values. Embedded documents keep their fields in order. *)

(** [datetime.datetime], naive (no [tzinfo]), as pymongo returns it and
    as [datetime.utcnow()] builds it. *)
Record datetime := Datetime {
  year : Z; month : Z; day : Z;
  hour : Z; minute : Z; second : Z; microsecond : Z
}.

(** [bson.ObjectId]: a 12-byte identifier, carried as a number. *)
Record ObjectId := Oid { oid_num : Z }.

#[warnings="-register-all"]
Inductive value :=
  | VNone
  | VBool (b : bool)
  | VInt (n : Z)
  | VFloat (f : spec_float)
  | VStr (s : string)
  | VDatetime (t : datetime)
  | VObjectId (o : ObjectId)
  | VList (vs : list value)
  | VDict (kvs : list (string * value)).

Abbreviation doc := (gmap string value).

#[global] Instance spec_float_eq_dec : EqDecision spec_float.
Proof. solve_decision. Defined.

#[global] Instance datetime_eq_dec : EqDecision datetime.
Proof. solve_decision. Defined.

#[global] Instance ObjectId_eq_dec : EqDecision ObjectId.
Proof. solve_decision. Defined.

(** Structural equality of values is decidable; lists and embedded
    documents are compared item by item, in order. *)
Fixpoint value_eqdec (x y : value) {struct x} : Decision (x = y).
Proof.
  refine
    (match x, y with
     | VNone, VNone => left _
     | VBool a, VBool b => cast_if (decide (a = b))
     | VInt a, VInt b => cast_if (decide (a = b))
     | VFloat a, VFloat b => cast_if (decide (a = b))
     | VStr a, VStr b => cast_if (decide (a = b))
     | VDatetime a, VDatetime b => cast_if (decide (a = b))
     | VObjectId a, VObjectId b => cast_if (decide (a = b))
     | VList xs, VList ys => cast_if (@list_eq_dec _ value_eqdec xs ys)
     | VDict xs, VDict ys =>
         cast_if (@list_eq_dec _ (@prod_eq_dec _ _ _ value_eqdec) xs ys)
     | _, _ => right _
     end); congruence.
Defined.

#[global] Instance value_eq_dec : EqDecision value := value_eqdec.

(** ** Rendering of identifiers and timestamps *)

Definition dec_digit (n : Z) : ascii := ascii_of_nat (48 + Z.to_nat (n mod 10)).

(** The last [w] decimal digits of [n], zero-padded, in front of [rest]
    (the [%0wd] conversions of [isoformat]). *)
Fixpoint dec_pad (w : nat) (n : Z) (rest : string) : string :=
  match w with
  | O => rest
  | S w' => dec_pad w' (n / 10) (String (dec_digit n) rest)
  end.

(** [datetime.isoformat(sep)]: [YYYY-MM-DD<sep>HH:MM:SS], followed by
    [.ffffff] when the microsecond field is not zero. *)
Definition isoformat_sep (sep : ascii) (t : datetime) : string :=
  dec_pad 4 (year t) (String "-" (dec_pad 2 (month t) (String "-"
 (dec_pad 2 (day t) (String sep (dec_pad 2 (hour t) (String ":"
 (dec_pad 2 (minute t) (String ":" (dec_pad 2 (second t)
 (if (microsecond t =? 0)%Z then "" else String "." (dec_pad 6 (microsecond t) "")))))))))))).

Definition isoformat (t : datetime) : string := isoformat_sep "T" t.

(** The last [w] hexadecimal digits of [n] in front of [rest]. *)
Fixpoint hex_pad (w : nat) (n : Z) (rest : string) : string :=
  match w with
  | O => rest
  | S w' => hex_pad w' (n / 16) (String (SHA256.hex_digit n) rest)
  end.

(** [str(ObjectId)]: 24 hexadecimal digits. *)
Definition oid_str (o : ObjectId) : string := hex_pad 24 (oid_num o) "".

Definition hex_digit_val (c : ascii) : option Z :=
  let n := Z.of_N (N_of_ascii c) in
  if ((48 <=? n) && (n <=? 57))%Z then Some (n - 48)%Z
  else if ((97 <=? n) && (n <=? 102))%Z then Some (n - 87)%Z
  else if ((65 <=? n) && (n <=? 70))%Z then Some (n - 55)%Z
  else None.

Fixpoint hex_val (s : string) (acc : Z) : option Z :=
  match s with
  | EmptyString => Some acc
  | String c s' =>
      match hex_digit_val c with
      | Some d => hex_val s' (acc * 16 + d)%Z
      | None => None
      end
  end.

(** [ObjectId(s)] for a string [s]: 24 hexadecimal digits, [None] for
    the [InvalidId] exception. *)
Definition ObjectId_of_str (s : string) : option ObjectId :=
  if Nat.eqb (String.length s) 24 then Oid <$> hex_val s 0 else None.

(** Built-ins of Python and pydantic that the development does not
    unfold. *)
Class Builtins := {
  (** [str(v)] for a number, a list or an embedded document *)
  py_repr : value -> string;
  (** [float(s)] for a [str]; [None] is [ValueError] *)
  float_of_string : string -> option spec_float;
  (** [EmailStr] validation: the normalised address, [None] when the
      string is rejected *)
  validate_email : string -> option string
}.

Section Normalizer.
Context `{Builtins}.

(** [str(v)] *)
Definition py_str (v : value) : string :=
  match v with
  | VStr s => s
  | VNone => "None"
  | VBool true => "True"
  | VBool false => "False"
  | VDatetime t => isoformat_sep " " t
  | VObjectId o => oid_str o
  | VInt _ | VFloat _ | VList _ | VDict _ => py_repr v
  end.

(** [if "_id" in doc: doc["id"] = str(doc.pop("_id"))] *)
Definition rename_id (d : doc) : doc :=
  match d !! "_id" with
  | Some v => <["id" := VStr (py_str v)]> (delete "_id" d)
  | None => d
  end.

(** One iteration of [for k, v in list(doc.items())]. *)
Definition iso_step (acc : doc) (kv : string * value) : doc :=
  match kv.2 with
  | VDatetime t => <[kv.1 := VStr (isoformat t)]> acc
  | _ => acc
  end.

(** [to_str_id]; the argument and the result are [None] or a dict.
    The loop runs over a snapshot of the items; the order in which it
    visits them does not change the result (see [iso_loop_fmap]). *)
Definition to_str_id (d : option doc) : option doc :=
  match d with
  | None => None
  | Some d =>
      let d := rename_id d in
      Some (foldl iso_step d (map_to_list d))
  end.

(** What the loop does to one value. *)
Definition render (v : value) : value :=
  match v with
  | VDatetime t => VStr (isoformat t)
  | _ => v
  end.

End Normalizer.

(** ** The normalizer on mutable dictionaries

    [to_str_id] receives a reference to a [dict] and mutates a [dict].
    Here dictionaries live in a heap, addressed by location, and every
    statement of the function is a heap transformer. Values held by a
    dictionary are never mutated by the function, so they stay plain
    values. *)
Module PyHeap.

Abbreviation loc := positive.
Abbreviation heap := (gmap loc doc).

(** A statement: it may fail (a dangling reference, a [KeyError]),
    otherwise returns a result and the heap it leaves. *)
Definition stmt (A : Type) : Type := heap -> option (A * heap).

#[global] Instance stmt_ret : MRet stmt := fun A x h => Some (x, h).
#[global] Instance stmt_bind : MBind stmt :=
  fun A B f m h => match m h with Some (x, h') => f x h' | None => None end.

(** [dict(d)]: a new dictionary with the same items. *)
Definition dict_copy (l : loc) : stmt loc :=
  fun h => d ← h !! l; Some (fresh (dom h), <[fresh (dom h) := d]> h).

(** [k in d] *)
Definition dict_contains (l : loc) (k : string) : stmt bool :=
  fun h => d ← h !! l; Some (bool_decide (is_Some (d !! k)), h).

(** [d.pop(k)] *)
Definition dict_pop (l : loc) (k : string) : stmt value :=
  fun h => d ← h !! l; v ← d !! k; Some (v, <[l := delete k d]> h).

(** [d[k] = v] *)
Definition dict_set (l : loc) (k : string) (v : value) : stmt unit :=
  fun h => d ← h !! l; Some (tt, <[l := <[k := v]> d]> h).

(** [list(d.items())]: a snapshot of the items. *)
Definition dict_items (l : loc) : stmt (list (string * value)) :=
  fun h => d ← h !! l; Some (map_to_list d, h).

(** [for x in xs: body(x)] *)
Fixpoint for_each {A} (xs : list A) (body : A -> stmt unit) : stmt unit :=
  match xs with
  | [] => mret tt
  | x :: xs' => body x ≫= fun _ => for_each xs' body
  end.

Section with_builtins.
Context `{Builtins}.

Definition to_str_id (arg : option loc) : stmt (option loc) :=
  match arg with
  | None => mret None
  | Some l =>
      l' ← dict_copy l;
      (has_id ← dict_contains l' "_id";
       if has_id : bool
       then v ← dict_pop l' "_id"; dict_set l' "id" (VStr (py_str v))
       else mret tt);;
      items ← dict_items l';
      for_each items (fun kv =>
        match kv.2 with
        | VDatetime t => dict_set l' kv.1 (VStr (isoformat t))
        | _ => mret tt
        end);;
      mret (Some l')
  end.

End with_builtins.
End PyHeap.

(** ** Outcomes of a request *)

Inductive outcome (A : Type) : Type :=
  | Ok (a : A)
  (** [raise HTTPException(status_code, detail)] *)
  | HTTPException (status_code : Z) (detail : string)
  (** the request body failed validation against the request model;
      the framework answers 422 and the handler is not run *)
  | RequestValidationError
  (** any other exception; the framework answers 500 *)
  | Unhandled (exn : string).
Arguments Ok {A} a.
Arguments HTTPException {A} status_code detail.
Arguments RequestValidationError {A}.
Arguments Unhandled {A} exn.

(** ** The document store

    [main.py] reaches the store in two ways: through pymongo
    ([db[name].find_one]) and through the adapter functions
    [create_document] and [get_documents] of [database.py]. *)

Record store := Store {
  (** the collections, each in store order *)
  collections : gmap string (list doc);
  (** the next identifier the store hands out *)
  next_oid : Z
}.

(** [db[name]]: a collection that was never written is empty. *)
Definition collection (st : store) (name : string) : list doc :=
  default [] (collections st !! name).

(** A document matches a filter when it carries every key of the filter
    with an equal value; the empty filter matches every document. *)
Definition matches (filt d : doc) : Prop :=
  map_Forall (fun k v => d !! k = Some v) filt.

#[global] Instance matches_dec (filt d : doc) : Decision (matches filt d).
Proof. unfold matches. apply _. Defined.

Definition find (st : store) (name : string) (filt : doc) : list doc :=
  filter (matches filt) (collection st name).

(** A handler: it runs against the process-wide handle [db], which is
    [None] when no store is configured, and leaves an outcome and the
    handle. Writes made before an exception stay. *)
Definition App (A : Type) : Type := option store -> outcome A * option store.

#[global] Instance App_ret : MRet App := fun A x db => (Ok x, db).
#[global] Instance App_bind : MBind App :=
  fun A B f m db =>
    match m db with
    | (Ok x, db') => f x db'
    | (HTTPException c d, db') => (HTTPException c d, db')
    | (RequestValidationError, db') => (RequestValidationError, db')
    | (Unhandled e, db') => (Unhandled e, db')
    end.

Definition raise {A} (e : outcome A) : App A := fun db => (e, db).

(** [if db] *)
Definition db_truthy : App bool := fun db => (Ok (bool_decide (is_Some db)), db).

(** [db[name].find_one(filt)]: the first match or [None]. Subscripting
    a [None] handle is a [TypeError]. *)
Definition find_one (name : string) (filt : doc) : App (option doc) :=
  fun db =>
    match db with
    | Some st => (Ok (head (find st name filt)), db)
    | None => (Unhandled "TypeError", db)
    end.

(** Modelled from the spec: [database.py] is not among the sources.
    [insert(collectionName, entity) -> identifier] persists the entity
    and returns a newly generated unique identifier as a string; the
    callers rebuild the [ObjectId] from that string and look the
    document up by [_id]. With no store every operation fails with a
    Store-Unavailable condition. *)
Definition create_document (name : string) (entity : doc) : App string :=
  fun db =>
    match db with
    | Some st =>
        let o := Oid (next_oid st) in
        let d := <["_id" := VObjectId o]> entity in
        (Ok (oid_str o),
         Some (Store (<[name := collection st name ++ [d]]> (collections st))
                     (next_oid st + 1)))
    | None => (Unhandled "StoreUnavailable", db)
    end.

(** Modelled from the spec: [database.py] is not among the sources.
    [find(collectionName, filter)] returns all documents whose fields
    match every key/value pair of the filter, in store order; the empty
    filter returns all documents. With no store the operation fails
    with a Store-Unavailable condition. *)
Definition get_documents (name : string) (filt : doc) : App (list doc) :=
  fun db =>
    match db with
    | Some st => (Ok (find st name filt), db)
    | None => (Unhandled "StoreUnavailable", db)
    end.

(** Identifiers are 12 bytes long. *)
Definition oid_ok (n : Z) : Prop := (0 <= n < 2 ^ 96)%Z.

(** The store invariant: every stored document carries an [ObjectId]
    under [_id] that the store handed out earlier, and one more
    identifier is available. *)
Definition doc_oid (d : doc) : option Z :=
  match d !! "_id" with
  | Some (VObjectId o) => Some (oid_num o)
  | _ => None
  end.

Definition doc_id_below (n : Z) (d : doc) : bool :=
  match doc_oid d with
  | Some m => (0 <=? m)%Z && (m <? n)%Z
  | None => false
  end.

Definition store_wfb (st : store) : bool :=
  (0 <=? next_oid st)%Z && (next_oid st <? 2 ^ 96)%Z &&
  bool_decide (map_Forall (fun _ docs => forallb (doc_id_below (next_oid st)) docs = true)
                 (collections st)).

Definition store_wf (st : store) : Prop := store_wfb st = true.

(** ** Schemas ([schemas.py]) and request models ([main.py]) *)

Record User := mkUser {
  u_name : string;
  u_email : string;
  u_password_hash : string;
  u_role : string;
  u_is_active : bool
}.

Record Service := mkService {
  s_code : string;
  s_name : string;
  s_description : option string;
  s_price : spec_float;
  s_active : bool
}.

Record Payment := mkPayment {
  p_user_id : string;
  p_service_code : string;
  p_amount : spec_float;
  p_status : string;
  p_reference : string
}.

Record SignupRequest := mkSignupRequest {
  su_name : string; su_email : string; su_password : string
}.

Record LoginRequest := mkLoginRequest {
  lg_email : string; lg_password : string
}.

Record AuthResponse := mkAuthResponse {
  token : string; ar_name : string; ar_email : string
}.

Record CreateService := mkCreateService {
  cs_code : string; cs_name : string;
  cs_description : option string; cs_price : spec_float
}.

Record CreatePayment := mkCreatePayment {
  cp_user_email : string; cp_service_code : string
}.

(** The documents the adapter stores for an entity ([model_dump]). *)
Definition dump_User (u : User) : doc :=
  <["name" := VStr (u_name u)]> (<["email" := VStr (u_email u)]>
  (<["password_hash" := VStr (u_password_hash u)]>
  (<["role" := VStr (u_role u)]> (<["is_active" := VBool (u_is_active u)]> ∅)))).

Definition dump_Service (sv : Service) : doc :=
  <["code" := VStr (s_code sv)]> (<["name" := VStr (s_name sv)]>
  (<["description" := from_option VStr VNone (s_description sv)]>
  (<["price" := VFloat (s_price sv)]> (<["active" := VBool (s_active sv)]> ∅)))).

Definition dump_Payment (p : Payment) : doc :=
  <["user_id" := VStr (p_user_id p)]>
  (<["service_code" := VStr (p_service_code p)]>
  (<["amount" := VFloat (p_amount p)]> (<["status" := VStr (p_status p)]>
  (<["reference" := VStr (p_reference p)]> ∅)))).

(** [hash_password] *)
Definition hash_password (p : string) : string := SHA256.hexdigest p.

(** Python truthiness of [None] or a dict, and of an optional [str]. *)
Definition truthy_doc (o : option doc) : bool :=
  match o with
  | Some d => negb (bool_decide (d = ∅))
  | None => false
  end.

Definition truthy_str (o : option string) : bool :=
  match o with
  | Some s => negb (bool_decide (s = ""))
  | None => false
  end.

(** [v != s] for a string [s]: only an equal string is equal to it. *)
Definition ne_str (v : value) (s : string) : bool :=
  match v with
  | VStr t => negb (bool_decide (t = s))
  | _ => true
  end.

(** [d.get(k)] *)
Definition dict_get (d : doc) (k : string) : value := default VNone (d !! k).

(** [d[k]] *)
Definition getitem (d : doc) (k : string) : App value :=
  match d !! k with
  | Some v => mret v
  | None => raise (Unhandled "KeyError")
  end.

(** The outcome of building a pydantic model inside a handler. *)
Definition validated {A} (o : option A) : App A :=
  match o with
  | Some a => mret a
  | None => raise (Unhandled "ValidationError")
  end.

(** A [str] field accepts a string only. *)
Definition as_str (v : value) : option string :=
  match v with VStr s => Some s | _ => None end.

(** [ObjectId(s)] *)
Definition to_ObjectId (s : string) : App ObjectId :=
  match ObjectId_of_str s with
  | Some o => mret o
  | None => raise (Unhandled "InvalidId")
  end.

(** [response_model=dict]: [None] is not a dict. *)
Definition as_dict (o : option doc) : App doc :=
  match o with
  | Some d => mret d
  | None => raise (Unhandled "ResponseValidationError")
  end.

(** [float(n)] for an [int]: the nearest binary64 number, ties to
    even; [None] is the [OverflowError] of an [int] out of range. *)
Definition float_of_int (n : Z) : option spec_float :=
  match binary_normalize 53 1024 n 0 false with
  | S754_infinity _ => None
  | f => Some f
  end.

Section Handlers.
Context `{Builtins}.

(** [User(name=..., email=..., password_hash=...)]: [email] is an
    [EmailStr], [role] and [is_active] take their defaults. *)
Definition UserSchema (name email password_hash : string) : option User :=
  e ← validate_email email;
  Some (mkUser name e password_hash "patient" true).

(** [Service(...)]: [price] is a float with [ge=0], [active] takes its
    default. *)
Definition ServiceSchema (code name : string) (description : option string)
    (price : spec_float) : option Service :=
  if SFleb (S754_zero false) price
  then Some (mkService code name description price true)
  else None.

(** [Payment(...)]: [amount] is a float with [ge=0]. *)
Definition PaymentSchema (user_id : string) (service_code : value)
    (amount : spec_float) (status reference : string) : option Payment :=
  code ← as_str service_code;
  if SFleb (S754_zero false) amount
  then Some (mkPayment user_id code amount status reference)
  else None.


Definition AuthResponse_validate (token : string) (name email : value)
    : option AuthResponse :=
  n ← as_str name; e ← as_str email; e' ← validate_email e;
  Some (mkAuthResponse token n e').

(** [float(v)] *)
Definition py_float (v : value) : App spec_float :=
  match v with
  | VFloat f => mret f
  | VBool b => mret (if b then S754_finite false 4503599627370496 (-52)
                     else S754_zero false)
  | VInt n =>
      match float_of_int n with
      | Some f => mret f
      | None => raise (Unhandled "OverflowError")
      end
  | VStr s =>
      match float_of_string s with
      | Some f => mret f
      | None => raise (Unhandled "ValueError")
      end
  | _ => raise (Unhandled "TypeError")
  end.

(** [db["user"].find_one({"email": email}) if db else None] *)
Definition find_user_if_db (email : string) : App (option doc) :=
  b ← db_truthy;
  if b : bool then find_one "user" {["email" := VStr email]} else mret None.

Definition signup (payload : SignupRequest) : App AuthResponse :=
  exists_ ← find_user_if_db (su_email payload);
  if truthy_doc exists_
  then raise (HTTPException 400 "Email already registered")
  else
    user ← validated (UserSchema (su_name payload) (su_email payload)
                        (hash_password (su_password payload)));
    user_id ← create_document "user" (dump_User user);
    let token := SHA256.hexdigest (su_email payload +:+ ":" +:+ user_id) in
    validated (AuthResponse_validate token (VStr (su_name payload))
                 (VStr (su_email payload))).

Definition login (payload : LoginRequest) : App AuthResponse :=
  user ← find_user_if_db (lg_email payload);
  if negb (truthy_doc user)
  then raise (HTTPException 401 "Invalid credentials")
  else
    let user := default ∅ user in
    if ne_str (dict_get user "password_hash")
              (hash_password (lg_password payload))
    then raise (HTTPException 401 "Invalid credentials")
    else
      email ← getitem user "email";
      id ← getitem user "_id";
      let token :=
        SHA256.hexdigest (py_str email +:+ ":" +:+ py_str (VStr (py_str id))) in
      name ← getitem user "name";
      email' ← getitem user "email";
      validated (AuthResponse_validate token name email').


(** [create_service] *)
Definition create_service (payload : CreateService) : App doc :=
  found ← find_one "service" {["code" := VStr (cs_code payload)]};
  if truthy_doc found
  then raise (HTTPException 400 "Service code already exists")
  else
    service ← validated (ServiceSchema (cs_code payload) (cs_name payload)
                           (cs_description payload) (cs_price payload));
    new_id ← create_document "service" (dump_Service service);
    oid ← to_ObjectId new_id;
    created ← find_one "service" {["_id" := VObjectId oid]};
    as_dict (to_str_id created).

(** [create_payment]; [now] is what [datetime.utcnow()] returns. *)
Definition create_payment (now : datetime) (payload : CreatePayment) : App doc :=
  user ← find_one "user" {["email" := VStr (cp_user_email payload)]};
  if negb (truthy_doc user)
  then raise (HTTPException 404 "User not found")
  else
    let user := default ∅ user in
    service ← find_one "service" {["code" := VStr (cp_service_code payload)]};
    if negb (truthy_doc service)
    then raise (HTTPException 404 "Service not found")
    else
      let service := default ∅ service in
      price ← getitem service "price";
      amount ← py_float price;
      uid ← getitem user "_id";
      code ← getitem service "code";
      uid' ← getitem user "_id";
      code' ← getitem service "code";
      let reference :=
        String.substring 0 12
          (SHA256.hexdigest (py_str uid' +:+ ":" +:+ py_str code'
                               +:+ ":" +:+ isoformat now)) in
      payment ← validated (PaymentSchema (py_str uid) code amount
                             "paid" reference);
      pay_id ← create_document "payment" (dump_Payment payment);
      oid ← to_ObjectId pay_id;
      created ← find_one "payment" {["_id" := VObjectId oid]};
      as_dict (to_str_id created).

(** [[to_str_id(x) for x in items]] returned under
    [response_model=List[dict]]. *)
Definition normalized (items : list doc) : App (list doc) :=
  match mapM (fun x => to_str_id (Some x)) items with
  | Some ds => mret ds
  | None => raise (Unhandled "ResponseValidationError")
  end.

(** [list_results] *)
Definition list_results (user_email : option string) : App (list doc) :=
  if truthy_str user_email
  then
    u ← find_one "user" {["email" := VStr (default "" user_email)]};
    if negb (truthy_doc u)
    then mret []
    else
      id ← getitem (default ∅ u) "_id";
      items ← get_documents "result" {["user_id" := VStr (py_str id)]};
      normalized items
  else
    items ← get_documents "result" ∅;
    normalized items.



(** The reference of a payment and the document that is stored. *)
Definition payment_reference (uid : value) (code : string) (now : datetime) : string :=
  String.substring 0 12
    (SHA256.hexdigest (py_str uid +:+ ":" +:+ code +:+ ":" +:+ isoformat now)).

Definition payment_doc (st : store) (uid : value) (code : string)
    (amount : spec_float) (now : datetime) : doc :=
  <["_id" := VObjectId (Oid (next_oid st))]>
    (dump_Payment (mkPayment (py_str uid) code amount "paid"
                     (payment_reference uid code now))).

End Handlers.

(** ** The remaining endpoints *)

Record Result := mkResult {
  r_user_id : string;
  r_service_code : string;
  r_values : list (string * value);
  r_notes : option string;
  r_reported_at : datetime
}.

Record CreateResult := mkCreateResult {
  cr_user_email : string; cr_service_code : string;
  cr_values : list (string * value); cr_notes : option string
}.

Definition dump_Result (r : Result) : doc :=
  <["user_id" := VStr (r_user_id r)]>
  (<["service_code" := VStr (r_service_code r)]>
  (<["values" := VDict (r_values r)]>
  (<["notes" := from_option VStr VNone (r_notes r)]>
  (<["reported_at" := VDatetime (r_reported_at r)]> ∅)))).

(** [Result(user_id=..., service_code=..., values=..., notes=...)]:
    no field is constrained; [reported_at] takes its default,
    [datetime.utcnow()], passed here as [now]. *)
Definition ResultSchema (user_id service_code : string)
    (values : list (string * value)) (notes : option string)
    (now : datetime) : Result :=
  mkResult user_id service_code values notes now.

(** [read_root] *)
Definition read_root : doc := {["message" := VStr "Laboratory API running"]}.

Section More_handlers.
Context `{Builtins}.

(** [list_services]; [get_documents("service")] is the query with the
    empty filter. *)
Definition list_services : App (list doc) :=
  items ← get_documents "service" ∅;
  normalized items.

(** [create_result]; [now] is what [datetime.utcnow()] returns when
    the [Result] is built. *)
Definition create_result (now : datetime) (payload : CreateResult) : App doc :=
  user ← find_one "user" {["email" := VStr (cr_user_email payload)]};
  if negb (truthy_doc user)
  then raise (HTTPException 404 "User not found")
  else
    let user := default ∅ user in
    service ← find_one "service" {["code" := VStr (cr_service_code payload)]};
    if negb (truthy_doc service)
    then raise (HTTPException 404 "Service not found")
    else
      uid ← getitem user "_id";
      let result := ResultSchema (py_str uid) (cr_service_code payload)
                      (cr_values payload) (cr_notes payload) now in
      res_id ← create_document "result" (dump_Result result);
      oid ← to_ObjectId res_id;
      created ← find_one "result" {["_id" := VObjectId oid]};
      as_dict (to_str_id created).

End More_handlers.

(** ** The diagnostic endpoint ([test_database])

    The function looks at the handle only through [db is not None],
    [db.name] and [db.list_collection_names()], and at the environment
    through two [getenv] calls; these are its inputs here. *)

Record DatabaseHandle := mkDatabaseHandle {
  (** [db.name] *)
  db_name : string;
  (** [db.list_collection_names()]: the names, or the text [str(e)] of
      the exception it raises *)
  list_collection_names : string + list string
}.

(** A byte that continues a UTF-8 character ([10xxxxxx]). *)
Definition utf8_continuation (c : ascii) : bool :=
  N.eqb (N.land (N_of_ascii c) 192) 128.

(** [s[:n]] on a string held as UTF-8 bytes: the first [n] characters. *)
Fixpoint utf8_take (n : nat) (s : string) : string :=
  match s with
  | EmptyString => EmptyString
  | String c s' =>
      if utf8_continuation c then String c (utf8_take n s')
      else match n with
           | O => EmptyString
           | S n' => String c (utf8_take n' s')
           end
  end.

(** [len(s)]: the number of characters. *)
Fixpoint utf8_length (s : string) : nat :=
  match s with
  | EmptyString => O
  | String c s' =>
      if utf8_continuation c then utf8_length s' else S (utf8_length s')
  end.

(** Python truthiness of a [str]. *)
Definition env_status (v : option string) : value :=
  if truthy_str v then VStr "✅ Set" else VStr "❌ Not Set".

(** [test_database]; [url] and [name] are what
    [getenv("DATABASE_URL")] and [getenv("DATABASE_NAME")] return. No
    statement of the outer [try] raises, so its handler does not run. *)
Definition test_database (db : option DatabaseHandle)
    (url name : option string) : doc :=
  let response : doc :=
    <["backend" := VStr "✅ Running"]>
    (<["database" := VStr "❌ Not Available"]>
    (<["database_url" := VNone]>
    (<["database_name" := VNone]>
    (<["connection_status" := VStr "Not Connected"]>
    (<["collections" := VList []]> ∅))))) in
  let response :=
    match db with
    | Some h =>
        let response := <["database" := VStr "✅ Available"]> response in
        let response := <["database_url" := VStr "✅ Configured"]> response in
        let response := <["database_name" := VStr (db_name h)]> response in
        let response := <["connection_status" := VStr "Connected"]> response in
        match list_collection_names h with
        | inr collections =>
            let response :=
              <["collections" := VList (VStr <$> take 10 collections)]> response in
            <["database" := VStr "✅ Connected & Working"]> response
        | inl e =>
            <["database" :=
                VStr ("⚠️  Connected but Error: " +:+ utf8_take 50 e)]> response
        end
    | None => <["database" := VStr "⚠️  Available but not initialized"]> response
    end in
  let response := <["database_url" := env_status url]> response in
  <["database_name" := env_status name]> response.

(** ** Example data

    A stand-in for the built-ins left abstract, to run the model on
    examples: an address is accepted as it is when an [@] separates two
    non-empty parts; numbers and containers print as a placeholder and
    no string converts to a float. *)
Fixpoint at_split (s : string) (seen : bool) : bool :=
  match s with
  | EmptyString => false
  | String c s' =>
      if Ascii.eqb c "@" then seen && negb (String.eqb s' "") else at_split s' true
  end.

Definition plain_builtins : Builtins :=
  {| py_repr := fun _ => "<repr>";
     float_of_string := fun _ => None;
     validate_email := fun s => if at_split s false then Some s else None |}.

(** Example stores: the empty store, and a store with one user, one
    service (priced 12.0) and one result (a value of 13.5). *)
Definition empty_store : store := Store ∅ 0.

Definition ana : doc :=
  <["_id" := VObjectId (Oid 0)]>
    (dump_User (mkUser "Ana" "ana@x.com" (hash_password "pw1") "patient" true)).

Definition cbc : doc :=
  <["_id" := VObjectId (Oid 1)]>
    (<["code" := VStr "CBC"]> (<["name" := VStr "Blood count"]>
    (<["description" := VNone]> (<["price" := VFloat (S754_finite false 6755399441055744 (-49))]>
    (<["active" := VBool true]> ∅))))).

Definition ana_cbc_result : doc :=
  <["_id" := VObjectId (Oid 2)]>
    (<["user_id" := VStr (oid_str (Oid 0))]> (<["service_code" := VStr "CBC"]>
    (<["values" := VDict [("hgb", VFloat (S754_finite false 7599824371187712 (-49)))]]>
    (<["notes" := VNone]>
    (<["reported_at" := VDatetime (Datetime 2024 3 5 7 8 9 0)]> ∅))))).

Definition lab_store : store :=
  Store (<["user" := [ana]]> (<["service" := [cbc]]>
        (<["result" := [ana_cbc_result]]> ∅))) 3.

(** A store whose only service has no [price] field. *)
Definition unpriced_store : store :=
  Store (<["user" := [ana]]>
        (<["service" := [<["_id" := VObjectId (Oid 1)]>
                           (<["code" := VStr "CBC"]> ∅)]]> ∅)) 2.

(** * Properties *)

(** ** Checks against the Python built-ins *)

Example sha256_empty :
  SHA256.hexdigest ""
    = "e3b0c44298fc1c149afbf4c8996fb92427ae41e4649b934ca495991b7852b855".
Proof. vm_compute. reflexivity. Qed.

Example sha256_abc :
  SHA256.hexdigest "abc"
    = "ba7816bf8f01cfea414140de5dae2223b00361a396177a9cb410ff61f20015ad".
Proof. vm_compute. reflexivity. Qed.

Example sha256_two_blocks :
  SHA256.hexdigest "abcdbcdecdefdefgefghfghighijhijkijkljklmklmnlmnomnopnopq"
    = "248d6a61d20638b8e5c026930c3e6039a33ce45964ff2167f6ecedd419db06c1".
Proof. vm_compute. reflexivity. Qed.

Example isoformat_seconds :
  isoformat (Datetime 2024 3 5 7 8 9 0) = "2024-03-05T07:08:09".
Proof. reflexivity. Qed.

Example isoformat_microseconds :
  isoformat (Datetime 2024 3 5 7 8 9 1200) = "2024-03-05T07:08:09.001200".
Proof. reflexivity. Qed.

Example oid_str_255 : oid_str (Oid 255) = "0000000000000000000000ff".
Proof. reflexivity. Qed.

(** The scenario of the specification: a signup, the same signup
    again, a login with the password and a login with a wrong one. *)
Example scenario_ana :
  let p := mkSignupRequest "Ana" "ana@x.com" "pw1" in
  let r1 := @signup plain_builtins p (Some empty_store) in
  match r1 with
  | (Ok resp, db1) =>
      (@signup plain_builtins p db1).1
        = HTTPException 400 "Email already registered" /\
      (@login plain_builtins (mkLoginRequest "ana@x.com" "pw1") db1).1 = Ok resp /\
      (@login plain_builtins (mkLoginRequest "ana@x.com" "wrong") db1).1
        = HTTPException 401 "Invalid credentials"
  | _ => False
  end.
Proof. vm_compute. repeat split; reflexivity. Qed.

(** ** The normalizer *)

Section Normalizer_facts.
Context `{Builtins}.

Lemma iso_loop_lookup (l : list (string * value)) (acc : doc) (k : string) :
  NoDup l.*1 ->
  foldl iso_step acc l !! k =
    match (list_to_map l : doc) !! k with
    | Some (VDatetime t) => Some (VStr (isoformat t))
    | _ => acc !! k
    end.
Proof.
  revert acc. induction l as [|[k0 v0] l IH]; intros acc Hnd; simpl.
  - by rewrite lookup_empty.
  - apply NoDup_cons in Hnd as [Hk0 Hnd]. rewrite IH by done.
    destruct (decide (k0 = k)) as [->|Hne].
    + rewrite lookup_insert_eq.
      rewrite (not_elem_of_list_to_map_1 (M:=gmap string) l k) by done.
      unfold iso_step; simpl. destruct v0; try done.
      by rewrite lookup_insert_eq.
    + rewrite lookup_insert_ne by done.
      destruct (list_to_map l !! k) as [[]|]; try done;
        unfold iso_step; simpl; destruct v0; try done;
        by rewrite lookup_insert_ne.
Qed.

Lemma iso_loop_fmap (d : doc) : foldl iso_step d (map_to_list d) = render <$> d.
Proof.
  apply map_eq. intros k.
  rewrite iso_loop_lookup by apply NoDup_fst_map_to_list.
  rewrite list_to_map_to_list, lookup_fmap.
  destruct (d !! k) as [[]|]; done.
Qed.

Lemma to_str_id_Some (d : doc) : to_str_id (Some d) = Some (render <$> rename_id d).
Proof. unfold to_str_id. by rewrite iso_loop_fmap. Qed.


Lemma render_idemp (v : value) : render (render v) = render v.
Proof. by destruct v. Qed.

Lemma render_not_datetime (v : value) (t : datetime) : render v <> VDatetime t.
Proof. by destruct v. Qed.

Lemma rename_id_no_raw (d : doc) : rename_id d !! "_id" = None.
Proof.
  unfold rename_id. destruct (d !! "_id") eqn:E; [|done].
  rewrite lookup_insert_ne by done. apply lookup_delete_eq.
Qed.

Lemma rename_id_fixed (d : doc) : d !! "_id" = None -> rename_id d = d.
Proof. intros E. unfold rename_id. by rewrite E. Qed.

Lemma run_bind {A B} (m : PyHeap.stmt A) (f : A -> PyHeap.stmt B) (h h' : PyHeap.heap) (x : A) :
  m h = Some (x, h') -> (m ≫= f) h = f x h'.
Proof. intros Hm. unfold mbind, PyHeap.stmt_bind. by rewrite Hm. Qed.

Lemma for_each_iso (items : list (string * value)) (l : PyHeap.loc) (h : PyHeap.heap) (d : doc) :
  h !! l = Some d ->
  PyHeap.for_each items (fun kv =>
    match kv.2 with
    | VDatetime t => PyHeap.dict_set l kv.1 (VStr (isoformat t))
    | _ => mret tt
    end) h = Some (tt, <[l := foldl iso_step d items]> h).
Proof.
  revert h d. induction items as [|[k v] items IH]; intros h d Hl; simpl.
  - unfold mret, PyHeap.stmt_ret. by rewrite insert_id.
  - destruct v; simpl; try (by apply IH).
    erewrite run_bind; last first.
    { unfold PyHeap.dict_set. rewrite Hl. reflexivity. }
    rewrite (IH _ (<[k := VStr (isoformat t)]> d)) by apply lookup_insert_eq.
    by rewrite insert_insert_eq.
Qed.

Lemma rename_id_stmt (l : PyHeap.loc) (h : PyHeap.heap) (d : doc) :
  h !! l = Some d ->
  (has_id ← PyHeap.dict_contains l "_id";
   if has_id : bool
   then v ← PyHeap.dict_pop l "_id"; PyHeap.dict_set l "id" (VStr (py_str v))
   else mret tt) h = Some (tt, <[l := rename_id d]> h).
Proof.
  intros Hl. erewrite run_bind; last first.
  { unfold PyHeap.dict_contains. rewrite Hl. reflexivity. }
  unfold rename_id. destruct (d !! "_id") as [v|] eqn:Hid.
  - rewrite bool_decide_eq_true_2 by eauto.
    erewrite run_bind; last first.
    { unfold PyHeap.dict_pop. rewrite Hl; simpl. rewrite Hid. reflexivity. }
    unfold PyHeap.dict_set. rewrite lookup_insert_eq; simpl.
    by rewrite insert_insert_eq.
  - rewrite bool_decide_eq_false_2 by (intros [? ?]; done).
    unfold mret, PyHeap.stmt_ret. by rewrite insert_id.
Qed.

(** The statement-level function computes the value-level one in a
    fresh dictionary and touches nothing else. *)
Lemma to_str_id_run (l : PyHeap.loc) (h : PyHeap.heap) (d : doc) :
  h !! l = Some d ->
  PyHeap.to_str_id (Some l) h =
    Some (Some (fresh (dom h)),
          <[fresh (dom h) := render <$> rename_id d]> h).
Proof.
  intros Hl. unfold PyHeap.to_str_id.
  erewrite run_bind; last first.
  { unfold PyHeap.dict_copy. rewrite Hl. reflexivity. }
  set (l' := fresh (dom h)). set (h1 := <[l' := d]> h).
  assert (h1 !! l' = Some d) as Hl' by apply lookup_insert_eq.
  erewrite run_bind by (by apply rename_id_stmt).
  erewrite run_bind; last first.
  { unfold PyHeap.dict_items. rewrite lookup_insert_eq. reflexivity. }
  erewrite run_bind by (apply for_each_iso, lookup_insert_eq).
  unfold mret, PyHeap.stmt_ret, h1. rewrite !insert_insert_eq.
  by rewrite iso_loop_fmap.
Qed.


(** C1: the normalizer maps an absent document to an absent result;
    for a document that carries the internal identifier field [_id],
    the result has [id] bound to the identifier rendered as a string,
    has no [_id] field, holds no timestamp any more, has every
    timestamp field rendered by [isoformat], and agrees with the
    input on every other field. *)
Theorem to_str_id_normalizes (d : doc) (v : value) :
  d !! "_id" = Some v ->
  to_str_id None = None /\
  exists out : doc,
    to_str_id (Some d) = Some out /\
    out !! "id" = Some (VStr (py_str v)) /\
    out !! "_id" = None /\
    (forall k t, out !! k <> Some (VDatetime t)) /\
    (forall k t, k <> "id" -> k <> "_id" ->
       d !! k = Some (VDatetime t) -> out !! k = Some (VStr (isoformat t))) /\
    (forall k, k <> "id" -> k <> "_id" ->
       (forall t, d !! k <> Some (VDatetime t)) -> out !! k = d !! k).
Proof.
  intros Hid. split; [done|].
  exists (render <$> rename_id d). rewrite to_str_id_Some.
  assert (forall k, k <> "id" -> k <> "_id" ->
            (render <$> rename_id d) !! k = render <$> d !! k) as Hother.
  { intros k Hk1 Hk2. rewrite lookup_fmap. unfold rename_id. rewrite Hid.
    by rewrite lookup_insert_ne, lookup_delete_ne by done. }
  repeat split.
  - rewrite lookup_fmap. unfold rename_id. rewrite Hid.
    by rewrite lookup_insert_eq.
  - by rewrite lookup_fmap, rename_id_no_raw.
  - intros k t. rewrite lookup_fmap.
    destruct (rename_id d !! k) as [x|]; simpl; [|done].
    intros [= Hx]. by apply render_not_datetime in Hx.
  - intros k t Hk1 Hk2 Hk. by rewrite Hother, Hk.
  - intros k Hk1 Hk2 Hk. rewrite Hother by done.
    destruct (d !! k) as [[]|] eqn:E; try done. by destruct (Hk t).
Qed.

(** C10: the normalizer is idempotent. *)
Theorem to_str_id_idempotent (d : option doc) :
  to_str_id (to_str_id d) = to_str_id d.
Proof.
  destruct d as [d|]; [|done]. rewrite !to_str_id_Some. f_equal.
  rewrite rename_id_fixed by (by rewrite lookup_fmap, rename_id_no_raw).
  apply map_eq. intros k. rewrite !lookup_fmap.
  destruct (rename_id d !! k); simpl; [|done]. by rewrite render_idemp.
Qed.

(** C8: run on a heap, the normalizer returns a dictionary that did
    not exist before, leaves the dictionary it was given and every
    other dictionary as they were, and the contents of the result are
    the value-level function of the contents of the input: two calls
    on equal contents, in any heaps, give equal contents. An absent
    argument changes nothing. *)
Theorem to_str_id_leaves_input (h : PyHeap.heap) (l : PyHeap.loc) (d : doc) :
  h !! l = Some d ->
  PyHeap.to_str_id None h = Some (None, h) /\
  exists l' h',
    PyHeap.to_str_id (Some l) h = Some (Some l', h') /\
    h !! l' = None /\
    h' !! l = Some d /\
    (forall l0, l0 <> l' -> h' !! l0 = h !! l0) /\
    h' !! l' = to_str_id (Some d) /\
    (forall (h2 : PyHeap.heap) l2, h2 !! l2 = Some d ->
       exists l2' h2',
         PyHeap.to_str_id (Some l2) h2 = Some (Some l2', h2') /\
         h2' !! l2' = h' !! l').
Proof.
  intros Hl. split; [done|].
  assert (h !! fresh (dom h) = None) as Hfresh.
  { apply not_elem_of_dom. apply is_fresh. }
  exists (fresh (dom h)), (<[fresh (dom h) := render <$> rename_id d]> h).
  split; [by apply to_str_id_run|]. split; [done|].
  split.
  { rewrite lookup_insert_ne; [done|]. intros E. rewrite E in Hfresh. congruence. }
  split.
  { intros l0 Hl0. by rewrite lookup_insert_ne. }
  split.
  { by rewrite lookup_insert_eq, to_str_id_Some. }
  intros h2 l2 Hl2.
  exists (fresh (dom h2)), (<[fresh (dom h2) := render <$> rename_id d]> h2).
  split; [by apply to_str_id_run|]. by rewrite !lookup_insert_eq.
Qed.

End Normalizer_facts.

Lemma to_str_id_normalizes_witness :
  ana_cbc_result !! "_id" = Some (VObjectId (Oid 2)) /\
  exists out : doc,
    @to_str_id plain_builtins (Some ana_cbc_result) = Some out /\
    out !! "id" = Some (VStr "000000000000000000000002") /\
    out !! "_id" = None.
Proof.
  assert (ana_cbc_result !! "_id" = Some (VObjectId (Oid 2))) as Hid0
    by (vm_compute; reflexivity).
  split; [exact Hid0|].
  destruct (@to_str_id_normalizes plain_builtins ana_cbc_result
              (VObjectId (Oid 2)) Hid0) as (_ & out & Hout & Hid & Hraw & _).
  exists out. split; [exact Hout|]. split; [exact Hid | exact Hraw].
Defined.

Lemma to_str_id_leaves_input_witness :
  exists l' h',
    @PyHeap.to_str_id plain_builtins (Some 1%positive) {[1%positive := ana_cbc_result]}
      = Some (Some l', h') /\
    h' !! 1%positive = Some ana_cbc_result.
Proof.
  assert (({[1%positive := ana_cbc_result]} : PyHeap.heap) !! 1%positive
          = Some ana_cbc_result) as Hl by (vm_compute; reflexivity).
  destruct (@to_str_id_leaves_input plain_builtins
              {[1%positive := ana_cbc_result]} 1%positive ana_cbc_result Hl)
    as (_ & l' & h' & Hrun & _ & Hsame & _).
  exists l', h'. split; [exact Hrun | exact Hsame].
Defined.

(** ** The store *)

Lemma matches_singleton (k : string) (v : value) (d : doc) :
  matches {[k := v]} d <-> d !! k = Some v.
Proof.
  unfold matches.
  exact (map_Forall_singleton (M:=gmap string) (fun k v => d !! k = Some v) k v).
Qed.

Lemma matches_empty (d : doc) : matches ∅ d.
Proof. unfold matches. apply map_Forall_empty. Qed.

Lemma find_all (st : store) (name : string) : find st name ∅ = collection st name.
Proof.
  unfold find. induction (collection st name) as [|d l IH]; [done|].
  rewrite filter_cons_True by apply matches_empty. by rewrite IH.
Qed.

Lemma find_nil (st : store) (name k : string) (v : value) :
  find st name {[k := v]} = [] <->
  ~ exists u, u ∈ collection st name /\ u !! k = Some v.
Proof.
  unfold find. split.
  - intros Hnil (u & Hu & Hk).
    by apply (filter_nil_not_elem_of _ _ u Hnil); [apply matches_singleton|].
  - intros Hno. destruct (filter _ _) as [|u l] eqn:E; [done|].
    exfalso. apply Hno. exists u.
    assert (u ∈ filter (matches {[k := v]}) (collection st name)) as Hin
      by (rewrite E; left).
    apply list_elem_of_filter in Hin as [Hm Hin].
    split; [done|]. by apply matches_singleton.
Qed.

Lemma head_find (st : store) (name k : string) (v : value) (u : doc) :
  head (find st name {[k := v]}) = Some u ->
  u ∈ collection st name /\ u !! k = Some v.
Proof.
  intros Hh. apply head_Some_elem_of in Hh.
  apply list_elem_of_filter in Hh as [Hm Hin].
  split; [done|]. by apply matches_singleton.
Qed.

Lemma truthy_doc_field (u : doc) (k : string) (v : value) :
  u !! k = Some v -> truthy_doc (Some u) = true.
Proof.
  intros Hk. unfold truthy_doc. rewrite bool_decide_eq_false_2; [done|].
  intros ->. by rewrite lookup_empty in Hk.
Qed.


Lemma collection_insert (c : gmap string (list doc)) (n : Z) (name : string)
    (l : list doc) :
  collection (Store (<[name := l]> c) n) name = l.
Proof. unfold collection; simpl. by rewrite lookup_insert_eq. Qed.

Lemma collection_insert_ne (st : store) (n : Z) (name name' : string)
    (l : list doc) :
  name <> name' ->
  collection (Store (<[name := l]> (collections st)) n) name' = collection st name'.
Proof. intros Hne. unfold collection; simpl. by rewrite lookup_insert_ne. Qed.

(** ** Authentication *)

Section Auth_facts.
Context `{Builtins}.

Lemma find_user_if_db_Some (st : store) (email : string) :
  find_user_if_db email (Some st) =
    (Ok (head (find st "user" {["email" := VStr email]})), Some st).
Proof. reflexivity. Qed.

Lemma find_user_if_db_None (email : string) :
  find_user_if_db email None = (Ok None, None).
Proof. reflexivity. Qed.

Lemma App_bind_Ok {A B} (m : App A) (f : A -> App B) db db' (x : A) :
  m db = (Ok x, db') -> (m ≫= f) db = f x db'.
Proof. intros Hm. unfold mbind, App_bind. by rewrite Hm. Qed.

Lemma App_bind_ret {A B} (x : A) (f : A -> App B) db :
  (mret x ≫= f) db = f x db.
Proof. reflexivity. Qed.


Lemma signup_taken (st : store) (payload : SignupRequest) (u : doc) (l : list doc) :
  find st "user" {["email" := VStr (su_email payload)]} = u :: l ->
  signup payload (Some st) =
    (HTTPException 400 "Email already registered", Some st).
Proof.
  intros Hf. unfold signup.
  assert (u !! "email" = Some (VStr (su_email payload))) as Hu.
  { apply (head_find st "user"). by rewrite Hf. }
  rewrite (App_bind_Ok _ _ _ _ _ (find_user_if_db_Some st _)), Hf.
  change (head (u :: l)) with (Some u).
  by rewrite (truthy_doc_field u _ _ Hu).
Qed.







End Auth_facts.




(** ** Identifiers and digests as strings *)

Lemma hexdigest_length (s : string) : String.length (SHA256.hexdigest s) = 64.
Proof.
  unfold SHA256.hexdigest, SHA256.hex_of_state.
  by destruct (SHA256.digest (SHA256.encode s)).
Qed.

Lemma substring_prefix_length (n : nat) (s : string) :
  n <= String.length s -> String.length (String.substring 0 n s) = n.
Proof.
  revert s. induction n as [|n IH]; intros s Hn.
  - by destruct s.
  - destruct s as [|c s]; simpl in *; [lia|]. rewrite IH; lia.
Qed.

Lemma hex_digit_val_hex_digit (n : Z) :
  hex_digit_val (SHA256.hex_digit n) = Some (n mod 16)%Z.
Proof.
  unfold SHA256.hex_digit.
  pose proof (Z.mod_pos_bound n 16 eq_refl) as Hb.
  set (m := (n mod 16)%Z) in *. clearbody m.
  assert (m = 0 \/ m = 1 \/ m = 2 \/ m = 3 \/ m = 4 \/ m = 5 \/ m = 6 \/ m = 7 \/
          m = 8 \/ m = 9 \/ m = 10 \/ m = 11 \/ m = 12 \/ m = 13 \/ m = 14 \/
          m = 15)%Z as Hm by lia.
  repeat (destruct Hm as [-> | Hm]; [reflexivity|]). by subst.
Qed.

Lemma hex_pad_length (w : nat) (n : Z) (rest : string) :
  String.length (hex_pad w n rest) = w + String.length rest.
Proof.
  revert n rest. induction w as [|w IH]; intros n rest; simpl; [done|].
  rewrite IH. simpl. lia.
Qed.

Lemma hex_val_hex_pad (w : nat) (n acc : Z) (rest : string) :
  hex_val (hex_pad w n rest) acc
    = hex_val rest (acc * 16 ^ Z.of_nat w + n mod 16 ^ Z.of_nat w)%Z.
Proof.
  revert n acc rest. induction w as [|w IH]; intros n acc rest.
  - simpl hex_pad. f_equal. rewrite Z.mod_1_r. change (16 ^ Z.of_nat 0)%Z with 1%Z. lia.
  - simpl hex_pad. rewrite IH. simpl hex_val. rewrite hex_digit_val_hex_digit.
    f_equal. rewrite Nat2Z.inj_succ, Z.pow_succ_r by lia.
    rewrite (Z.rem_mul_r n 16 (16 ^ Z.of_nat w)) by lia. lia.
Qed.

Lemma ObjectId_of_str_oid_str (n : Z) :
  oid_ok n -> ObjectId_of_str (oid_str (Oid n)) = Some (Oid n).
Proof.
  intros Hn. unfold ObjectId_of_str, oid_str. simpl oid_num.
  rewrite hex_pad_length. simpl Nat.eqb. cbv iota.
  rewrite hex_val_hex_pad. simpl hex_val.
  change (16 ^ Z.of_nat 24)%Z with (2 ^ 96)%Z.
  unfold oid_ok in Hn. rewrite Z.mod_small by lia. done.
Qed.

Lemma store_wf_iff (st : store) :
  store_wf st <->
  oid_ok (next_oid st) /\
  forall name d, d ∈ collection st name ->
    exists n, doc_oid d = Some n /\ (0 <= n < next_oid st)%Z.
Proof.
  unfold store_wf, store_wfb, oid_ok.
  rewrite !andb_true_iff, bool_decide_eq_true, Z.leb_le, Z.ltb_lt.
  split.
  - intros [Hn Hall]. split; [lia|]. intros name d Hd.
    unfold collection in Hd.
    destruct (collections st !! name) as [docs|] eqn:E; simpl in Hd;
      [|by apply not_elem_of_nil in Hd].
    specialize (Hall name docs E). simpl in Hall.
    rewrite forallb_forall in Hall. apply list_elem_of_In in Hd.
    specialize (Hall d Hd). unfold doc_id_below in Hall.
    destruct (doc_oid d) as [m|]; [|done].
    apply andb_true_iff in Hall as [H1 H2].
    apply Z.leb_le in H1. apply Z.ltb_lt in H2. exists m. split; [done|lia].
  - intros [Hn Hall]. split; [lia|]. intros name docs E. simpl.
    apply forallb_forall. intros d Hd. apply list_elem_of_In in Hd.
    destruct (Hall name d) as (m & Hm & Hlt).
    { unfold collection. by rewrite E. }
    unfold doc_id_below. rewrite Hm. apply andb_true_iff.
    rewrite Z.leb_le, Z.ltb_lt. lia.
Qed.

Lemma wf_next (st : store) : store_wf st -> oid_ok (next_oid st).
Proof. intros Hwf. by apply store_wf_iff in Hwf as [? _]. Qed.

(** Appending a document under a new identifier keeps the invariant. *)
Lemma create_document_wf (st : store) (name : string) (entity : doc) :
  store_wf st -> (next_oid st + 1 < 2 ^ 96)%Z ->
  match (create_document name entity (Some st)).2 with
  | Some st' => store_wf st'
  | None => False
  end.
Proof.
  intros [Hnext Hids]%store_wf_iff Hroom. simpl. apply store_wf_iff.
  split; simpl.
  - unfold oid_ok in *. lia.
  - intros name' d Hd. destruct (decide (name = name')) as [<-|Hne].
    + rewrite collection_insert in Hd. apply elem_of_app in Hd as [Hd|Hd].
      * destruct (Hids name d Hd) as (n & Hn & Hlt). exists n. split; [done|lia].
      * apply list_elem_of_singleton in Hd as ->. exists (next_oid st).
        unfold doc_oid. rewrite lookup_insert_eq. unfold oid_ok in Hnext.
        split; [done|lia].
    + rewrite collection_insert_ne in Hd by done.
      destruct (Hids name' d Hd) as (n & Hn & Hlt). exists n. split; [done|lia].
Qed.

(** Looking up the identifier just handed out finds the new document. *)
Lemma find_new_document (st : store) (name : string) (d : doc) :
  store_wf st ->
  head (filter (matches {["_id" := VObjectId (Oid (next_oid st))]})
          (collection st name ++ [<["_id" := VObjectId (Oid (next_oid st))]> d]))
    = Some (<["_id" := VObjectId (Oid (next_oid st))]> d).
Proof.
  intros [_ Hids]%store_wf_iff. rewrite filter_app.
  assert (filter (matches {["_id" := VObjectId (Oid (next_oid st))]})
            (collection st name) = []) as ->.
  { destruct (filter _ _) as [|x l] eqn:E; [done|]. exfalso.
    assert (x ∈ filter (matches {["_id" := VObjectId (Oid (next_oid st))]})
                  (collection st name)) as Hx by (rewrite E; left).
    apply list_elem_of_filter in Hx as [Hm Hx].
    apply matches_singleton in Hm.
    destruct (Hids name x Hx) as (n & Hn & Hlt).
    unfold doc_oid in Hn. rewrite Hm in Hn. simpl in Hn.
    injection Hn as <-. lia. }
  simpl. rewrite filter_cons_True; [done|].
  apply matches_singleton, lookup_insert_eq.
Qed.

(** ** Payments *)

Section Payment_facts.
Context `{Builtins}.

Lemma payment_reference_length (uid : value) (code : string) (now : datetime) :
  String.length (payment_reference uid code now) = 12.
Proof.
  unfold payment_reference. apply substring_prefix_length.
  rewrite hexdigest_length. lia.
Qed.

Lemma create_payment_run (st : store) (now : datetime) (payload : CreatePayment)
    (u sv : doc) (uid : value) (p : spec_float) :
  store_wf st ->
  head (find st "user" {["email" := VStr (cp_user_email payload)]}) = Some u ->
  head (find st "service" {["code" := VStr (cp_service_code payload)]}) = Some sv ->
  u !! "_id" = Some uid ->
  sv !! "price" = Some (VFloat p) ->
  SFleb (S754_zero false) p = true ->
  create_payment now payload (Some st) =
    (Ok (render <$> rename_id
           (payment_doc st uid (cp_service_code payload) p now)),
     Some (Store (<["payment" := collection st "payment" ++
                      [payment_doc st uid (cp_service_code payload) p now]]>
                    (collections st))
                 (next_oid st + 1))).
Proof.
  intros Hwf Hu Hsv Hid Hprice Hge.
  destruct (head_find _ _ _ _ _ Hu) as [_ Hemail].
  destruct (head_find _ _ _ _ _ Hsv) as [_ Hcode].
  unfold create_payment.
  rewrite (App_bind_Ok _ _ (Some st) (Some st) (Some u)) by (by rewrite <- Hu).
  rewrite (truthy_doc_field _ _ _ Hemail). cbn [negb].
  change (default ∅ (Some u)) with u.
  rewrite (App_bind_Ok _ _ (Some st) (Some st) (Some sv)) by (by rewrite <- Hsv).
  rewrite (truthy_doc_field _ _ _ Hcode). cbn [negb].
  change (default ∅ (Some sv)) with sv.
  unfold getitem. rewrite Hprice, Hid, Hcode. rewrite App_bind_ret.
  cbn [py_float]. rewrite !App_bind_ret.
  unfold PaymentSchema. cbn [as_str mbind option_bind]. rewrite Hge.
  cbn [validated]. rewrite App_bind_ret.
  erewrite App_bind_Ok by reflexivity.
  unfold to_ObjectId.
  rewrite (ObjectId_of_str_oid_str _ (wf_next _ Hwf)). rewrite App_bind_ret.
  erewrite App_bind_Ok; last first.
  { unfold find_one, find. rewrite collection_insert.
    cbn [py_str]. fold (payment_reference uid (cp_service_code payload) now).
    fold (payment_doc st uid (cp_service_code payload) p now).
    unfold payment_doc at 1.
    rewrite (find_new_document st "payment" _ Hwf). reflexivity. }
  fold (payment_doc st uid (cp_service_code payload) p now).
  by rewrite to_str_id_Some.
Qed.

(** A service stored by [create_service] carries a price that
    [create_payment] accepts. *)
Lemma create_service_price (st st' : store) (payload : CreateService) (out : doc) :
  create_service payload (Some st) = (Ok out, Some st') ->
  exists sv,
    collection st' "service" = collection st "service" ++ [sv] /\
    sv !! "code" = Some (VStr (cs_code payload)) /\
    sv !! "price" = Some (VFloat (cs_price payload)) /\
    SFleb (S754_zero false) (cs_price payload) = true.
Proof.
  unfold create_service.
  erewrite (App_bind_Ok (find_one _ _)) by reflexivity.
  destruct (truthy_doc _); [discriminate|].
  unfold ServiceSchema.
  destruct (SFleb (S754_zero false) (cs_price payload)) eqn:Hge; [|discriminate].
  cbn [validated]. rewrite App_bind_ret.
  erewrite App_bind_Ok by reflexivity.
  intros Hrun.
  assert (st' = Store (<["service" := collection st "service" ++
                           [<["_id" := VObjectId (Oid (next_oid st))]>
                              (dump_Service (mkService (cs_code payload) (cs_name payload)
                                 (cs_description payload) (cs_price payload) true))]]>
                         (collections st)) (next_oid st + 1)) as ->.
  { unfold to_ObjectId in Hrun. destruct (ObjectId_of_str _); [|discriminate].
    rewrite App_bind_ret in Hrun.
    erewrite App_bind_Ok in Hrun by reflexivity.
    destruct (to_str_id _); simpl in Hrun; [|discriminate].
    unfold mret, App_ret in Hrun. congruence. }
  eexists. split; [apply collection_insert|].
  unfold dump_Service; simpl.
  repeat split;
    repeat (rewrite lookup_insert_eq || rewrite lookup_insert_ne by done);
    done.
Qed.

Lemma payment_doc_fields (st : store) (uid : value) (code : string)
    (p : spec_float) (now : datetime) (d : doc) :
  d = payment_doc st uid code p now \/
  d = render <$> rename_id (payment_doc st uid code p now) ->
  d !! "user_id" = Some (VStr (py_str uid)) /\
  d !! "service_code" = Some (VStr code) /\
  d !! "amount" = Some (VFloat p) /\
  d !! "status" = Some (VStr "paid") /\
  d !! "reference" = Some (VStr (payment_reference uid code now)).
Proof.
  assert (forall k v, k <> "_id" -> k <> "id" ->
            payment_doc st uid code p now !! k = Some v -> render v = v ->
            (render <$> rename_id (payment_doc st uid code p now)) !! k = Some v)
    as Hout.
  { intros k v Hk1 Hk2 Hk Hr. rewrite lookup_fmap. unfold rename_id.
    unfold payment_doc at 1. rewrite lookup_insert_eq.
    rewrite lookup_insert_ne, lookup_delete_ne by done. by rewrite Hk; simpl; rewrite Hr. }
  assert (payment_doc st uid code p now !! "user_id" = Some (VStr (py_str uid)) /\
          payment_doc st uid code p now !! "service_code" = Some (VStr code) /\
          payment_doc st uid code p now !! "amount" = Some (VFloat p) /\
          payment_doc st uid code p now !! "status" = Some (VStr "paid") /\
          payment_doc st uid code p now !! "reference"
            = Some (VStr (payment_reference uid code now)))
    as (H1 & H2 & H3 & H4 & H5).
  { unfold payment_doc, dump_Payment; simpl.
    repeat split;
      repeat (rewrite lookup_insert_eq || rewrite lookup_insert_ne by done);
      done. }
  intros [-> | ->]; [done|].
  repeat split; by apply Hout.
Qed.

(** C2: when the user and the service of a create-payment request
    are found, and the service carries a price that the schema
    admits (a float, not negative), the request succeeds; the payment
    document returned and the one stored carry the price as [amount],
    the string "paid" as [status], and as [reference] the first 12
    characters, exactly 12, of the hexadecimal digest of the user
    identifier, the service code and the timestamp joined by colons. *)
Theorem create_payment_copies_price (st : store) (now : datetime)
    (payload : CreatePayment) (u sv : doc) (p : spec_float) :
  store_wf st ->
  head (find st "user" {["email" := VStr (cp_user_email payload)]}) = Some u ->
  head (find st "service" {["code" := VStr (cp_service_code payload)]}) = Some sv ->
  sv !! "price" = Some (VFloat p) ->
  SFleb (S754_zero false) p = true ->
  exists (uid : value) (ref : string) (out stored : doc) (st' : store),
    u !! "_id" = Some uid /\
    ref = String.substring 0 12
            (SHA256.hexdigest (py_str uid +:+ ":" +:+ cp_service_code payload
                                 +:+ ":" +:+ isoformat now)) /\
    String.length ref = 12 /\
    create_payment now payload (Some st) = (Ok out, Some st') /\
    collection st' "payment" = collection st "payment" ++ [stored] /\
    (forall d : doc, d = out \/ d = stored ->
       d !! "amount" = Some (VFloat p) /\
       d !! "status" = Some (VStr "paid") /\
       d !! "reference" = Some (VStr ref) /\
       d !! "user_id" = Some (VStr (py_str uid)) /\
       d !! "service_code" = Some (VStr (cp_service_code payload))).
Proof.
  intros Hwf Hu Hsv Hprice Hge.
  assert (exists uid, u !! "_id" = Some uid) as [uid Hid].
  { apply store_wf_iff in Hwf as [_ Hids].
    destruct (head_find _ _ _ _ _ Hu) as [Hin _].
    destruct (Hids _ _ Hin) as (n & Hn & _). unfold doc_oid in Hn.
    destruct (u !! "_id"); [eauto | done]. }
  exists uid, (payment_reference uid (cp_service_code payload) now).
  eexists _, (payment_doc st uid (cp_service_code payload) p now), _.
  split; [done|]. split; [done|].
  split; [apply payment_reference_length|].
  split; [by apply (create_payment_run st now payload u sv uid p)|].
  split; [apply collection_insert|].
  intros d Hd.
  destruct (payment_doc_fields st uid (cp_service_code payload) p now d)
    as (H1 & H2 & H3 & H4 & H5); [tauto | done].
Qed.

End Payment_facts.

Lemma create_payment_copies_price_witness :
  exists out db',
    @create_payment plain_builtins (Datetime 2024 3 5 7 8 9 1200)
       (mkCreatePayment "ana@x.com" "CBC") (Some lab_store) = (Ok out, db') /\
    out !! "amount" = Some (VFloat (S754_finite false 6755399441055744 (-49))) /\
    out !! "status" = Some (VStr "paid").
Proof.
  assert (store_wf lab_store) as Hwf by (vm_compute; reflexivity).
  assert (head (find lab_store "user" {["email" := VStr "ana@x.com"]}) = Some ana)
    as Hu by (vm_compute; reflexivity).
  assert (head (find lab_store "service" {["code" := VStr "CBC"]}) = Some cbc)
    as Hsv by (vm_compute; reflexivity).
  assert (cbc !! "price" = Some (VFloat (S754_finite false 6755399441055744 (-49)))) as Hprice
    by (vm_compute; reflexivity).
  assert (SFleb (S754_zero false) (S754_finite false 6755399441055744 (-49)) = true) as Hge
    by (vm_compute; reflexivity).
  destruct (@create_payment_copies_price plain_builtins lab_store
              (Datetime 2024 3 5 7 8 9 1200) (mkCreatePayment "ana@x.com" "CBC")
              ana cbc _ Hwf Hu Hsv Hprice Hge)
    as (uid & ref & out & stored & st' & _ & _ & _ & Hrun & _ & Hfields).
  exists out, (Some st'). split; [exact Hrun|].
  destruct (Hfields out (or_introl eq_refl)) as (Ha & Hs & _).
  split; [exact Ha | exact Hs].
Defined.

(** ** Results *)

Section Results_facts.
Context `{Builtins}.

Lemma normalized_run (items : list doc) (db : option store) :
  normalized items db = (Ok ((fun x => render <$> rename_id x) <$> items), db).
Proof.
  unfold normalized.
  assert (mapM (fun x => to_str_id (Some x)) items
          = Some ((fun x => render <$> rename_id x) <$> items)) as ->; [|done].
  apply mapM_Some. induction items as [|x l IH]; constructor; [|done].
  apply to_str_id_Some.
Qed.


(** C7, amended: a list-results request whose [user_email] is not
    empty and matches no user document gets the empty list and no
    error; a request without [user_email] gets every document of the
    result collection, each normalized, in store order. *)
Theorem list_results_unknown_user (st : store) (e : string) :
  e <> "" ->
  find st "user" {["email" := VStr e]} = [] ->
  list_results (Some e) (Some st) = (Ok [], Some st) /\
  exists out : list doc,
    list_results None (Some st) = (Ok out, Some st) /\
    Some <$> out = (fun x => to_str_id (Some x)) <$> collection st "result".
Proof.
  intros He Hf. split.
  - unfold list_results, truthy_str. rewrite bool_decide_eq_false_2 by done.
    cbn [negb]. change (default "" (Some e)) with e.
    rewrite (App_bind_Ok _ _ (Some st) (Some st) None); [done|].
    unfold find_one. by rewrite Hf.
  - exists ((fun x => render <$> rename_id x) <$> collection st "result").
    split.
    + unfold list_results. cbn [truthy_str].
      rewrite (App_bind_Ok _ _ (Some st) (Some st) (collection st "result")).
      * apply normalized_run.
      * unfold get_documents. by rewrite find_all.
    + rewrite <- list_fmap_compose. apply list_fmap_ext.
      intros _ x _. symmetry. apply to_str_id_Some.
Qed.


End Results_facts.

(** C7 does not hold for the empty address: it matches no user, yet
    the answer is every result document. *)
Lemma empty_email_lists_every_result :
  find lab_store "user" {["email" := VStr ""]} = [] /\
  (@list_results plain_builtins (Some "") (Some lab_store)).1
    = Ok [render <$> @rename_id plain_builtins ana_cbc_result] /\
  (@list_results plain_builtins (Some "") (Some lab_store)).1 <> Ok [].
Proof.
  split; [vm_compute; reflexivity|].
  assert ((@list_results plain_builtins (Some "") (Some lab_store)).1
          = Ok [render <$> @rename_id plain_builtins ana_cbc_result]) as E
    by (vm_compute; reflexivity).
  split; [exact E|]. rewrite E. discriminate.
Qed.

Lemma list_results_unknown_user_witness :
  @list_results plain_builtins (Some "bob@x.com") (Some lab_store)
    = (Ok [], Some lab_store).
Proof.
  assert ("bob@x.com" <> "") as He by discriminate.
  assert (find lab_store "user" {["email" := VStr "bob@x.com"]} = []) as Hf
    by (vm_compute; reflexivity).
  exact (proj1 (@list_results_unknown_user plain_builtins lab_store "bob@x.com" He Hf)).
Defined.



(** ** The other endpoints *)

Section Endpoint_facts.
Context `{Builtins}.

Lemma bind_keeps_store {A B} (m : App A) (f : A -> App B) :
  (forall db, (m db).2 = db) -> (forall x db, (f x db).2 = db) ->
  forall db, ((m ≫= f) db).2 = db.
Proof.
  intros Hm Hf db. unfold mbind, App_bind.
  specialize (Hm db). destruct (m db) as [[x| | |] db']; simpl in *; subst; eauto.
Qed.

Lemma find_one_keeps_store name filt db : (find_one name filt db).2 = db.
Proof. by destruct db. Qed.

Lemma get_documents_keeps_store name filt db : (get_documents name filt db).2 = db.
Proof. by destruct db. Qed.

Lemma getitem_keeps_store d k db : (getitem d k db).2 = db.
Proof. unfold getitem. by destruct (d !! k). Qed.

Lemma validated_keeps_store {A} (o : option A) db : (validated o db).2 = db.
Proof. by destruct o. Qed.

Lemma normalized_keeps_store items db : (normalized items db).2 = db.
Proof. by rewrite normalized_run. Qed.

Ltac keeps_store :=
  repeat first
    [ apply find_one_keeps_store | apply get_documents_keeps_store
    | apply getitem_keeps_store | apply validated_keeps_store
    | apply normalized_keeps_store | reflexivity
    | apply bind_keeps_store; [intros ? | intros ? ?]
    | case_match ].

(** X1: [login], [list_services] and [list_results] never write:
    whatever the request and the outcome, the store they leave is the
    store they were given. *)
Theorem reads_leave_store (db : option store) (p : LoginRequest)
    (user_email : option string) :
  (login p db).2 = db /\ (list_services db).2 = db /\
  (list_results user_email db).2 = db.
Proof.
  split; [|split]; revert db.
  - unfold login, find_user_if_db, db_truthy. keeps_store.
  - unfold list_services. keeps_store.
  - unfold list_results. keeps_store.
Qed.






(** What a handler leaves when it is run on a store: on success a
    store that [Q] describes, otherwise the store it was given. *)
Lemma all_or_nothing_bind {A B} (Q : B -> option store -> Prop)
    (m : App A) (f : A -> App B) (st : store) :
  (m (Some st)).2 = Some st ->
  (forall x, match f x (Some st) with
             | (Ok y, db') => Q y db'
             | (_, db') => db' = Some st
             end) ->
  match (m ≫= f) (Some st) with
  | (Ok y, db') => Q y db'
  | (_, db') => db' = Some st
  end.
Proof.
  intros Hm Hf. unfold mbind, App_bind.
  destruct (m (Some st)) as [[x| | |] db']; simpl in Hm; subst; try done.
  apply Hf.
Qed.

Lemma fetch_created (st : store) (name : string) (entity : doc) :
  store_wf st ->
  (new_id ← create_document name entity;
   oid ← to_ObjectId new_id;
   created ← find_one name {["_id" := VObjectId oid]};
   as_dict (to_str_id created)) (Some st)
  = (Ok (render <$> rename_id (<["_id" := VObjectId (Oid (next_oid st))]> entity)),
     (create_document name entity (Some st)).2).
Proof.
  intros Hwf.
  erewrite App_bind_Ok by reflexivity.
  unfold to_ObjectId.
  rewrite (ObjectId_of_str_oid_str _ (wf_next _ Hwf)), App_bind_ret.
  erewrite App_bind_Ok; last first.
  { unfold find_one, find. rewrite collection_insert.
    rewrite (find_new_document st name _ Hwf). reflexivity. }
  by rewrite to_str_id_Some.
Qed.


Lemma normalize_lookup (d : doc) (k : string) :
  k <> "id" -> k <> "_id" ->
  (render <$> rename_id d) !! k = render <$> d !! k.
Proof.
  intros Hk1 Hk2. rewrite lookup_fmap. unfold rename_id.
  destruct (d !! "_id"); [|done].
  by rewrite lookup_insert_ne, lookup_delete_ne by done.
Qed.

Lemma normalize_id (d : doc) (v : value) :
  d !! "_id" = Some v ->
  (render <$> rename_id d) !! "id" = Some (VStr (py_str v)).
Proof.
  intros Hid. rewrite lookup_fmap. unfold rename_id. rewrite Hid.
  by rewrite lookup_insert_eq.
Qed.

Lemma normalize_raw (d : doc) : (render <$> rename_id d) !! "_id" = None.
Proof. by rewrite lookup_fmap, rename_id_no_raw. Qed.

Lemma list_services_run (st : store) :
  list_services (Some st)
    = (Ok ((fun x => render <$> rename_id x) <$> collection st "service"), Some st).
Proof.
  unfold list_services.
  rewrite (App_bind_Ok _ _ (Some st) (Some st) (collection st "service")).
  - apply normalized_run.
  - unfold get_documents. by rewrite find_all.
Qed.

Lemma create_service_taken (st : store) (p : CreateService) (sv : doc) (l : list doc) :
  find st "service" {["code" := VStr (cs_code p)]} = sv :: l ->
  create_service p (Some st)
    = (HTTPException 400 "Service code already exists", Some st).
Proof.
  intros Hf. unfold create_service.
  assert (sv !! "code" = Some (VStr (cs_code p))) as Hc.
  { apply (head_find st "service"). by rewrite Hf. }
  erewrite (App_bind_Ok (find_one _ _)) by reflexivity.
  rewrite Hf. change (head (sv :: l)) with (Some sv).
  by rewrite (truthy_doc_field _ _ _ Hc).
Qed.

Lemma create_service_free (st : store) (p : CreateService) :
  find st "service" {["code" := VStr (cs_code p)]} = [] ->
  create_service p (Some st) =
    (service ← validated (ServiceSchema (cs_code p) (cs_name p)
                            (cs_description p) (cs_price p));
     new_id ← create_document "service" (dump_Service service);
     oid ← to_ObjectId new_id;
     created ← find_one "service" {["_id" := VObjectId oid]};
     as_dict (to_str_id created)) (Some st).
Proof.
  intros Hf. unfold create_service.
  erewrite (App_bind_Ok (find_one _ _)) by reflexivity.
  by rewrite Hf.
Qed.

(** X5: [create_service] answers 400 "Service code already exists",
    leaving the store as it was, exactly when a stored service carries
    the requested code. *)
Theorem create_service_conflict_iff (st : store) (p : CreateService) :
  create_service p (Some st)
    = (HTTPException 400 "Service code already exists", Some st)
  <-> exists sv, sv ∈ collection st "service" /\
                 sv !! "code" = Some (VStr (cs_code p)).
Proof.
  destruct (find st "service" {["code" := VStr (cs_code p)]}) as [|sv l] eqn:Hf.
  - rewrite (create_service_free st p Hf). split.
    + unfold ServiceSchema. destruct (SFleb _ _); cbn [validated]; [|discriminate].
      rewrite App_bind_ret.
      erewrite App_bind_Ok by reflexivity.
      unfold to_ObjectId. destruct (ObjectId_of_str _); [|discriminate].
      rewrite App_bind_ret.
      erewrite (App_bind_Ok (find_one _ _)) by reflexivity.
      unfold as_dict. destruct (to_str_id _); discriminate.
    + intros Hex. by apply (find_nil st "service" "code") in Hf.
  - rewrite (create_service_taken st p sv l Hf). split; [|done].
    intros _. exists sv. apply (head_find st "service"). by rewrite Hf.
Qed.

(** X6: a price that the [Service] schema refuses (negative, or not a
    number) is not refused by the request model: with an unused code the
    handler ends in an unhandled validation error and stores nothing. *)
Theorem create_service_refused_price (st : store) (p : CreateService) :
  find st "service" {["code" := VStr (cs_code p)]} = [] ->
  SFleb (S754_zero false) (cs_price p) = false ->
  create_service p (Some st) = (Unhandled "ValidationError", Some st).
Proof.
  intros Hf Hp. rewrite (create_service_free st p Hf).
  unfold ServiceSchema. by rewrite Hp.
Qed.






(** Outcomes that are not an [HTTPException]. *)
Lemma bind_not_http {A B} (m : App A) (f : A -> App B) :
  (forall db c d, (m db).1 <> HTTPException c d) ->
  (forall x db c d, (f x db).1 <> HTTPException c d) ->
  forall db c d, ((m ≫= f) db).1 <> HTTPException c d.
Proof.
  intros Hm Hf db c d. unfold mbind, App_bind.
  specialize (Hm db). destruct (m db) as [[x| | |] db']; simpl in *; try done.
  by destruct (Hm status_code detail).
Qed.

Lemma getitem_not_http d k db c e : (getitem d k db).1 <> HTTPException c e.
Proof. unfold getitem. by destruct (d !! k). Qed.

Lemma validated_not_http {A} (o : option A) db c e :
  (validated o db).1 <> HTTPException c e.
Proof. by destruct o. Qed.

Lemma py_float_not_http v db c e : (py_float v db).1 <> HTTPException c e.
Proof.
  destruct v; simpl; try done.
  - by destruct (float_of_int n).
  - by destruct (float_of_string s).
Qed.

Lemma py_float_keeps_store v db : (py_float v db).2 = db.
Proof.
  destruct v; simpl; try done.
  - by destruct (float_of_int n).
  - by destruct (float_of_string s).
Qed.

Lemma fetch_not_http (name : string) (entity : doc) db c e :
  ((new_id ← create_document name entity;
    oid ← to_ObjectId new_id;
    created ← find_one name {["_id" := VObjectId oid]};
    as_dict (to_str_id created)) db).1 <> HTTPException c e.
Proof.
  revert db c e. apply bind_not_http.
  - intros [st|]; done.
  - intros new_id. apply bind_not_http.
    + intros db c e. unfold to_ObjectId. by destruct (ObjectId_of_str _).
    + intros oid. apply bind_not_http.
      * intros [st|]; done.
      * intros created db c e. unfold as_dict. by destruct (to_str_id _).
Qed.

Lemma create_payment_no_user (st : store) (now : datetime) (p : CreatePayment) :
  find st "user" {["email" := VStr (cp_user_email p)]} = [] ->
  create_payment now p (Some st) = (HTTPException 404 "User not found", Some st).
Proof.
  intros Hf. unfold create_payment.
  erewrite (App_bind_Ok (find_one _ _)) by reflexivity. by rewrite Hf.
Qed.

Lemma create_payment_user (st : store) (now : datetime) (p : CreatePayment)
    (u : doc) :
  head (find st "user" {["email" := VStr (cp_user_email p)]}) = Some u ->
  create_payment now p (Some st) =
    (service ← find_one "service" {["code" := VStr (cp_service_code p)]};
     if negb (truthy_doc service)
     then raise (HTTPException 404 "Service not found")
     else
       let service := default ∅ service in
       price ← getitem service "price";
       amount ← py_float price;
       uid ← getitem u "_id";
       code ← getitem service "code";
       uid' ← getitem u "_id";
       code' ← getitem service "code";
       let reference :=
         String.substring 0 12
           (SHA256.hexdigest (py_str uid' +:+ ":" +:+ py_str code'
                                +:+ ":" +:+ isoformat now)) in
       payment ← validated (PaymentSchema (py_str uid) code amount
                              "paid" reference);
       pay_id ← create_document "payment" (dump_Payment payment);
       oid ← to_ObjectId pay_id;
       created ← find_one "payment" {["_id" := VObjectId oid]};
       as_dict (to_str_id created)) (Some st).
Proof.
  intros Hu. destruct (head_find _ _ _ _ _ Hu) as [_ Hemail].
  unfold create_payment.
  erewrite (App_bind_Ok (find_one _ _)) by reflexivity. rewrite Hu.
  by rewrite (truthy_doc_field _ _ _ Hemail).
Qed.

Lemma create_payment_no_service (st : store) (now : datetime) (p : CreatePayment)
    (u : doc) :
  head (find st "user" {["email" := VStr (cp_user_email p)]}) = Some u ->
  find st "service" {["code" := VStr (cp_service_code p)]} = [] ->
  create_payment now p (Some st)
    = (HTTPException 404 "Service not found", Some st).
Proof.
  intros Hu Hf. rewrite (create_payment_user st now p u Hu).
  erewrite (App_bind_Ok (find_one _ _)) by reflexivity. by rewrite Hf.
Qed.

Lemma create_payment_service (st : store) (now : datetime) (p : CreatePayment)
    (u sv : doc) :
  head (find st "user" {["email" := VStr (cp_user_email p)]}) = Some u ->
  head (find st "service" {["code" := VStr (cp_service_code p)]}) = Some sv ->
  create_payment now p (Some st) =
    (price ← getitem sv "price";
     amount ← py_float price;
     uid ← getitem u "_id";
     code ← getitem sv "code";
     uid' ← getitem u "_id";
     code' ← getitem sv "code";
     payment ← validated (PaymentSchema (py_str uid) code amount "paid"
                  (String.substring 0 12
                     (SHA256.hexdigest (py_str uid' +:+ ":" +:+ py_str code'
                                          +:+ ":" +:+ isoformat now))));
     pay_id ← create_document "payment" (dump_Payment payment);
     oid ← to_ObjectId pay_id;
     created ← find_one "payment" {["_id" := VObjectId oid]};
     as_dict (to_str_id created)) (Some st).
Proof.
  intros Hu Hsv. destruct (head_find _ _ _ _ _ Hsv) as [_ Hcode].
  rewrite (create_payment_user st now p u Hu).
  erewrite (App_bind_Ok (find_one _ _)) by reflexivity. rewrite Hsv.
  by rewrite (truthy_doc_field _ _ _ Hcode).
Qed.

Lemma create_payment_found_not_http (st : store) (now : datetime)
    (p : CreatePayment) (u sv : doc) (c : Z) (e : string) :
  head (find st "user" {["email" := VStr (cp_user_email p)]}) = Some u ->
  head (find st "service" {["code" := VStr (cp_service_code p)]}) = Some sv ->
  (create_payment now p (Some st)).1 <> HTTPException c e.
Proof.
  intros Hu Hsv. rewrite (create_payment_service st now p u sv Hu Hsv).
  revert c e. generalize (Some st).
  repeat first
    [ apply fetch_not_http
    | apply bind_not_http;
      [ first [ apply getitem_not_http | apply py_float_not_http
              | apply validated_not_http ]
      | intros ? ] ].
Qed.

(** X8: [create_payment] answers 404 "User not found" exactly when no
    user document has the address, whether or not the service exists,
    and 404 "Service not found" exactly when a user is found and no
    service document has the code; in both cases nothing is stored. *)
Theorem create_payment_not_found_iff (st : store) (now : datetime)
    (p : CreatePayment) :
  (create_payment now p (Some st) = (HTTPException 404 "User not found", Some st)
   <-> find st "user" {["email" := VStr (cp_user_email p)]} = []) /\
  (create_payment now p (Some st) = (HTTPException 404 "Service not found", Some st)
   <-> find st "user" {["email" := VStr (cp_user_email p)]} <> [] /\
       find st "service" {["code" := VStr (cp_service_code p)]} = []).
Proof.
  destruct (find st "user" {["email" := VStr (cp_user_email p)]})
    as [|u lu] eqn:Hu.
  { rewrite (create_payment_no_user st now p Hu).
    split; [done|]. split; [discriminate | by intros [? _]]. }
  assert (head (find st "user" {["email" := VStr (cp_user_email p)]}) = Some u)
    as Hhu by (by rewrite Hu).
  destruct (find st "service" {["code" := VStr (cp_service_code p)]})
    as [|sv ls] eqn:Hsv.
  { rewrite (create_payment_no_service st now p u Hhu Hsv).
    split; [split; discriminate | done]. }
  assert (head (find st "service" {["code" := VStr (cp_service_code p)]}) = Some sv)
    as Hhsv by (by rewrite Hsv).
  pose proof (create_payment_found_not_http st now p u sv) as Hno.
  split; (split; [intros Heq; exfalso;
                  by eapply (Hno _ _ Hhu Hhsv); rewrite Heq|]).
  - discriminate.
  - by intros [_ ?].
Qed.

Lemma payment_reference_12 (s : string) :
  String.length (String.substring 0 12 (SHA256.hexdigest s)) = 12.
Proof. apply substring_prefix_length. rewrite hexdigest_length. lia. Qed.

Lemma create_payment_run_cases (st : store) (now : datetime)
    (p : CreatePayment) :
  store_wf st ->
  match create_payment now p (Some st) with
  | (Ok out, db') =>
      exists pay : Payment,
        db' = (create_document "payment" (dump_Payment pay) (Some st)).2 /\
        out = render <$> rename_id
                (<["_id" := VObjectId (Oid (next_oid st))]> (dump_Payment pay)) /\
        p_status pay = "paid" /\
        SFleb (S754_zero false) (p_amount pay) = true /\
        String.length (p_reference pay) = 12
  | (_, db') => db' = Some st
  end.
Proof.
  intros Hwf.
  destruct (find st "user" {["email" := VStr (cp_user_email p)]})
    as [|u lu] eqn:Hu.
  { by rewrite (create_payment_no_user st now p Hu). }
  assert (head (find st "user" {["email" := VStr (cp_user_email p)]}) = Some u)
    as Hhu by (by rewrite Hu).
  destruct (find st "service" {["code" := VStr (cp_service_code p)]})
    as [|sv ls] eqn:Hsv.
  { by rewrite (create_payment_no_service st now p u Hhu Hsv). }
  assert (head (find st "service" {["code" := VStr (cp_service_code p)]}) = Some sv)
    as Hhsv by (by rewrite Hsv).
  rewrite (create_payment_service st now p u sv Hhu Hhsv).
  apply all_or_nothing_bind; [apply getitem_keeps_store|intros price].
  apply all_or_nothing_bind; [apply py_float_keeps_store|intros amount].
  apply all_or_nothing_bind; [apply getitem_keeps_store|intros uid].
  apply all_or_nothing_bind; [apply getitem_keeps_store|intros code].
  apply all_or_nothing_bind; [apply getitem_keeps_store|intros uid'].
  apply all_or_nothing_bind; [apply getitem_keeps_store|intros code'].
  unfold PaymentSchema. destruct (as_str code) as [c|]; [|done].
  cbn [mbind option_bind].
  destruct (SFleb (S754_zero false) amount) eqn:Hge; [|done].
  cbn [validated]. rewrite App_bind_ret, (fetch_created st _ _ Hwf).
  eexists. split; [reflexivity|]. split; [reflexivity|]. simpl.
  split; [done|]. split; [done|]. apply payment_reference_12.
Qed.


(** X9: on a store that satisfies its invariant, [create_payment]
    either succeeds, having appended exactly one payment document
    (status "paid", a non-negative amount, a reference of 12
    characters) and returning that document normalized, or fails and
    leaves the store as it was. *)
Theorem create_payment_all_or_nothing (st : store) (now : datetime)
    (p : CreatePayment) :
  store_wf st ->
  match create_payment now p (Some st) with
  | (Ok out, db') =>
      exists pay : Payment,
        db' = (create_document "payment" (dump_Payment pay) (Some st)).2 /\
        out = render <$> rename_id
                (<["_id" := VObjectId (Oid (next_oid st))]> (dump_Payment pay)) /\
        p_status pay = "paid" /\
        SFleb (S754_zero false) (p_amount pay) = true /\
        String.length (p_reference pay) = 12
  | (_, db') => db' = Some st
  end.
Proof. apply create_payment_run_cases. Qed.

(** X10: when the user and the service are found but the service
    document has no [price] field, or a price that is not a number,
    [create_payment] ends in an unhandled [KeyError] or [TypeError],
    not in a 404, and stores nothing; a negative price ends in an
    unhandled validation error. *)
Theorem create_payment_bad_price (st : store) (now : datetime)
    (p : CreatePayment) (u sv : doc) :
  store_wf st ->
  head (find st "user" {["email" := VStr (cp_user_email p)]}) = Some u ->
  head (find st "service" {["code" := VStr (cp_service_code p)]}) = Some sv ->
  (sv !! "price" = None ->
   create_payment now p (Some st) = (Unhandled "KeyError", Some st)) /\
  (sv !! "price" = Some VNone ->
   create_payment now p (Some st) = (Unhandled "TypeError", Some st)) /\
  (forall f, sv !! "price" = Some (VFloat f) ->
     SFleb (S754_zero false) f = false ->
     create_payment now p (Some st) = (Unhandled "ValidationError", Some st)).
Proof.
  intros Hwf Hu Hsv. rewrite (create_payment_service st now p u sv Hu Hsv).
  destruct (head_find _ _ _ _ _ Hsv) as [_ Hcode].
  assert (exists uid, u !! "_id" = Some uid) as [uid Hid].
  { apply store_wf_iff in Hwf as [_ Hids].
    destruct (head_find _ _ _ _ _ Hu) as [Hin _].
    destruct (Hids _ _ Hin) as (n & Hn & _). unfold doc_oid in Hn.
    destruct (u !! "_id"); [eauto | done]. }
  unfold getitem. rewrite Hid, Hcode.
  split; [|split].
  - by intros ->.
  - by intros ->.
  - intros f -> Hf. rewrite App_bind_ret. cbn [py_float].
    rewrite !App_bind_ret. unfold PaymentSchema.
    cbn [as_str mbind option_bind]. by rewrite Hf.
Qed.

(** ** [create_result] *)

Lemma create_result_no_user (st : store) (now : datetime) (p : CreateResult) :
  find st "user" {["email" := VStr (cr_user_email p)]} = [] ->
  create_result now p (Some st) = (HTTPException 404 "User not found", Some st).
Proof.
  intros Hf. unfold create_result.
  erewrite (App_bind_Ok (find_one _ _)) by reflexivity. by rewrite Hf.
Qed.

Lemma create_result_user (st : store) (now : datetime) (p : CreateResult)
    (u : doc) :
  head (find st "user" {["email" := VStr (cr_user_email p)]}) = Some u ->
  create_result now p (Some st) =
    (service ← find_one "service" {["code" := VStr (cr_service_code p)]};
     if negb (truthy_doc service)
     then raise (HTTPException 404 "Service not found")
     else
       uid ← getitem u "_id";
       res_id ← create_document "result"
                  (dump_Result (ResultSchema (py_str uid) (cr_service_code p)
                                  (cr_values p) (cr_notes p) now));
       oid ← to_ObjectId res_id;
       created ← find_one "result" {["_id" := VObjectId oid]};
       as_dict (to_str_id created)) (Some st).
Proof.
  intros Hu. destruct (head_find _ _ _ _ _ Hu) as [_ Hemail].
  unfold create_result.
  erewrite (App_bind_Ok (find_one _ _)) by reflexivity. rewrite Hu.
  by rewrite (truthy_doc_field _ _ _ Hemail).
Qed.

Lemma create_result_no_service (st : store) (now : datetime) (p : CreateResult)
    (u : doc) :
  head (find st "user" {["email" := VStr (cr_user_email p)]}) = Some u ->
  find st "service" {["code" := VStr (cr_service_code p)]} = [] ->
  create_result now p (Some st)
    = (HTTPException 404 "Service not found", Some st).
Proof.
  intros Hu Hf. rewrite (create_result_user st now p u Hu).
  erewrite (App_bind_Ok (find_one _ _)) by reflexivity. by rewrite Hf.
Qed.

Lemma create_result_service (st : store) (now : datetime) (p : CreateResult)
    (u sv : doc) :
  head (find st "user" {["email" := VStr (cr_user_email p)]}) = Some u ->
  head (find st "service" {["code" := VStr (cr_service_code p)]}) = Some sv ->
  create_result now p (Some st) =
    (uid ← getitem u "_id";
     res_id ← create_document "result"
                (dump_Result (ResultSchema (py_str uid) (cr_service_code p)
                                (cr_values p) (cr_notes p) now));
     oid ← to_ObjectId res_id;
     created ← find_one "result" {["_id" := VObjectId oid]};
     as_dict (to_str_id created)) (Some st).
Proof.
  intros Hu Hsv. destruct (head_find _ _ _ _ _ Hsv) as [_ Hcode].
  rewrite (create_result_user st now p u Hu).
  erewrite (App_bind_Ok (find_one _ _)) by reflexivity. rewrite Hsv.
  by rewrite (truthy_doc_field _ _ _ Hcode).
Qed.

Lemma create_result_found_not_http (st : store) (now : datetime)
    (p : CreateResult) (u sv : doc) (c : Z) (e : string) :
  head (find st "user" {["email" := VStr (cr_user_email p)]}) = Some u ->
  head (find st "service" {["code" := VStr (cr_service_code p)]}) = Some sv ->
  (create_result now p (Some st)).1 <> HTTPException c e.
Proof.
  intros Hu Hsv. rewrite (create_result_service st now p u sv Hu Hsv).
  revert c e. generalize (Some st).
  apply bind_not_http; [apply getitem_not_http|intros uid].
  apply fetch_not_http.
Qed.

(** X11: [create_result] answers 404 "User not found" exactly when no
    user document has the address and 404 "Service not found" exactly
    when a user is found and no service document has the code; in both
    cases nothing is stored. *)
Theorem create_result_not_found_iff (st : store) (now : datetime)
    (p : CreateResult) :
  (create_result now p (Some st) = (HTTPException 404 "User not found", Some st)
   <-> find st "user" {["email" := VStr (cr_user_email p)]} = []) /\
  (create_result now p (Some st) = (HTTPException 404 "Service not found", Some st)
   <-> find st "user" {["email" := VStr (cr_user_email p)]} <> [] /\
       find st "service" {["code" := VStr (cr_service_code p)]} = []).
Proof.
  destruct (find st "user" {["email" := VStr (cr_user_email p)]})
    as [|u lu] eqn:Hu.
  { rewrite (create_result_no_user st now p Hu).
    split; [done|]. split; [discriminate | by intros [? _]]. }
  assert (head (find st "user" {["email" := VStr (cr_user_email p)]}) = Some u)
    as Hhu by (by rewrite Hu).
  destruct (find st "service" {["code" := VStr (cr_service_code p)]})
    as [|sv ls] eqn:Hsv.
  { rewrite (create_result_no_service st now p u Hhu Hsv).
    split; [split; discriminate | done]. }
  assert (head (find st "service" {["code" := VStr (cr_service_code p)]}) = Some sv)
    as Hhsv by (by rewrite Hsv).
  pose proof (create_result_found_not_http st now p u sv) as Hno.
  split; (split; [intros Heq; exfalso;
                  by eapply (Hno _ _ Hhu Hhsv); rewrite Heq|]).
  - discriminate.
  - by intros [_ ?].
Qed.


Lemma list_results_found (st : store) (e : string) (u : doc) (uid : value) :
  e <> "" ->
  head (find st "user" {["email" := VStr e]}) = Some u ->
  u !! "_id" = Some uid ->
  list_results (Some e) (Some st)
    = (Ok ((fun x => render <$> rename_id x)
             <$> find st "result" {["user_id" := VStr (py_str uid)]}),
       Some st).
Proof.
  intros He Hu Hid. destruct (head_find _ _ _ _ _ Hu) as [_ Hemail].
  unfold list_results, truthy_str. rewrite bool_decide_eq_false_2 by done.
  cbn [negb]. change (default "" (Some e)) with e.
  erewrite (App_bind_Ok (find_one _ _)) by reflexivity. rewrite Hu.
  rewrite (truthy_doc_field _ _ _ Hemail). cbn [negb].
  change (default ∅ (Some u)) with u.
  unfold getitem. rewrite Hid, App_bind_ret.
  erewrite (App_bind_Ok (get_documents _ _)) by reflexivity.
  apply normalized_run.
Qed.

(** X13: for a non-empty address whose user is found, [list_results]
    returns the normalized result documents whose [user_id] is the
    string form of that user's identifier: every document returned has
    that [user_id], and every stored result with that [user_id] is
    returned. *)
Theorem list_results_of_user (st : store) (e : string) (u : doc) (uid : value) :
  e <> "" ->
  head (find st "user" {["email" := VStr e]}) = Some u ->
  u !! "_id" = Some uid ->
  exists out : list doc,
    list_results (Some e) (Some st) = (Ok out, Some st) /\
    (forall d, d ∈ out -> d !! "user_id" = Some (VStr (py_str uid))) /\
    (forall r, r ∈ collection st "result" ->
       r !! "user_id" = Some (VStr (py_str uid)) ->
       render <$> rename_id r ∈ out) /\
    length out <= length (collection st "result").
Proof.
  intros He Hu Hid. eexists. split; [by apply (list_results_found st e u uid)|].
  split; [|split].
  - intros d Hd. apply list_elem_of_fmap in Hd as (r & -> & Hr).
    apply list_elem_of_filter in Hr as [Hm _].
    apply matches_singleton in Hm.
    by rewrite normalize_lookup, Hm.
  - intros r Hr Hm. apply list_elem_of_fmap. exists r. split; [done|].
    apply list_elem_of_filter. split; [|done]. by apply matches_singleton.
  - rewrite length_fmap. apply length_filter.
Qed.




(** ** Writes *)

Lemma signup_run_cases (st : store) (p : SignupRequest) :
  match signup p (Some st) with
  | (Ok resp, db') =>
      exists e : string,
        validate_email (su_email p) = Some e /\
        find st "user" {["email" := VStr (su_email p)]} = [] /\
        db' = (create_document "user"
                 (dump_User (mkUser (su_name p) e (hash_password (su_password p))
                               "patient" true)) (Some st)).2 /\
        resp = mkAuthResponse
                 (SHA256.hexdigest
                    (su_email p +:+ ":" +:+ oid_str (Oid (next_oid st))))
                 (su_name p) e
  | (_, db') => db' = Some st
  end.
Proof.
  destruct (find st "user" {["email" := VStr (su_email p)]}) as [|u l] eqn:Hf.
  2: { by rewrite (signup_taken st p u l Hf). }
  unfold signup.
  rewrite (App_bind_Ok _ _ _ _ _ (find_user_if_db_Some st _)), Hf.
  cbn [head truthy_doc]. unfold UserSchema.
  destruct (validate_email (su_email p)) as [e|] eqn:Hv; [|done].
  cbn [mbind option_bind validated]. rewrite App_bind_ret.
  erewrite App_bind_Ok by reflexivity.
  unfold AuthResponse_validate. cbn [as_str mbind option_bind]. rewrite Hv.
  cbn [mbind option_bind validated].
  exists e. done.
Qed.


Lemma create_service_run_cases (st : store) (p : CreateService) :
  store_wf st ->
  match create_service p (Some st) with
  | (Ok out, db') =>
      exists entity : doc,
        db' = (create_document "service" entity (Some st)).2
  | (_, db') => db' = Some st
  end.
Proof.
  intros Hwf.
  destruct (find st "service" {["code" := VStr (cs_code p)]}) as [|sv l] eqn:Hf.
  2: { by rewrite (create_service_taken st p sv l Hf). }
  rewrite (create_service_free st p Hf). unfold ServiceSchema.
  destruct (SFleb _ _); [|done]. cbn [validated].
  rewrite App_bind_ret, (fetch_created st _ _ Hwf). by eexists.
Qed.

Lemma create_result_run_cases (st : store) (now : datetime) (p : CreateResult) :
  store_wf st ->
  match create_result now p (Some st) with
  | (Ok out, db') =>
      exists entity : doc,
        db' = (create_document "result" entity (Some st)).2
  | (_, db') => db' = Some st
  end.
Proof.
  intros Hwf.
  destruct (find st "user" {["email" := VStr (cr_user_email p)]})
    as [|u lu] eqn:Hu.
  { by rewrite (create_result_no_user st now p Hu). }
  assert (head (find st "user" {["email" := VStr (cr_user_email p)]}) = Some u)
    as Hhu by (by rewrite Hu).
  destruct (find st "service" {["code" := VStr (cr_service_code p)]})
    as [|sv ls] eqn:Hsv.
  { by rewrite (create_result_no_service st now p u Hhu Hsv). }
  assert (head (find st "service" {["code" := VStr (cr_service_code p)]}) = Some sv)
    as Hhsv by (by rewrite Hsv).
  rewrite (create_result_service st now p u sv Hhu Hhsv).
  apply all_or_nothing_bind; [apply getitem_keeps_store|intros uid].
  rewrite (fetch_created st _ _ Hwf). by eexists.
Qed.

Lemma wf_after (st : store) (name : string) (entity : doc) (db' : option store) :
  store_wf st -> (next_oid st + 1 < 2 ^ 96)%Z ->
  db' = Some st \/ db' = (create_document name entity (Some st)).2 ->
  exists st', db' = Some st' /\ store_wf st'.
Proof.
  intros Hwf Hroom [-> | ->]; [by exists st|].
  pose proof (create_document_wf st name entity Hwf Hroom) as Hk.
  destruct ((create_document name entity (Some st)).2) as [st'|]; [|done].
  by exists st'.
Qed.

(** X15: every handler that writes keeps the invariant of the store:
    run on a store in which every document carries an identifier below
    the next one to hand out (and one more identifier is left), signup,
    create_service, create_payment and create_result leave such a store,
    whatever the request and the outcome. *)
Theorem handlers_keep_invariant (st : store) (now : datetime)
    (su : SignupRequest) (cs : CreateService) (cp : CreatePayment)
    (cr : CreateResult) :
  store_wf st -> (next_oid st + 1 < 2 ^ 96)%Z ->
  (exists st', (signup su (Some st)).2 = Some st' /\ store_wf st') /\
  (exists st', (create_service cs (Some st)).2 = Some st' /\ store_wf st') /\
  (exists st', (create_payment now cp (Some st)).2 = Some st' /\ store_wf st') /\
  (exists st', (create_result now cr (Some st)).2 = Some st' /\ store_wf st').
Proof.
  intros Hwf Hroom. split; [|split; [|split]].
  - pose proof (signup_run_cases st su) as Hrun.
    destruct (signup su (Some st)) as [[resp| | |] db']; simpl;
      try (subst; by exists st).
    destruct Hrun as (e & _ & _ & -> & _).
    eapply (wf_after st "user"); eauto.
  - pose proof (create_service_run_cases st cs Hwf) as Hrun.
    destruct (create_service cs (Some st)) as [[out| | |] db']; simpl;
      try (subst; by exists st).
    destruct Hrun as (entity & ->). eapply (wf_after st "service"); eauto.
  - pose proof (create_payment_run_cases st now cp Hwf) as Hrun.
    destruct (create_payment now cp (Some st)) as [[out| | |] db']; simpl;
      try (subst; by exists st).
    destruct Hrun as (pay & -> & _). eapply (wf_after st "payment"); eauto.
  - pose proof (create_result_run_cases st now cr Hwf) as Hrun.
    destruct (create_result now cr (Some st)) as [[out| | |] db']; simpl;
      try (subst; by exists st).
    destruct Hrun as (entity & ->). eapply (wf_after st "result"); eauto.
Qed.


(** ** Without a store *)

(** X3: with no store configured ([db] is [None]) a login is answered
    401 "Invalid credentials" whatever the request, while create_service,
    create_payment and create_result end in an unhandled [TypeError] and
    a signup in an unhandled exception; none of them gets a store. *)
Theorem handlers_without_store (now : datetime) (lg : LoginRequest)
    (su : SignupRequest) (cs : CreateService) (cp : CreatePayment)
    (cr : CreateResult) :
  login lg None = (HTTPException 401 "Invalid credentials", None) /\
  create_service cs None = (Unhandled "TypeError", None) /\
  create_payment now cp None = (Unhandled "TypeError", None) /\
  create_result now cr None = (Unhandled "TypeError", None) /\
  exists e, signup su None = (Unhandled e, None).
Proof.
  repeat split; try reflexivity.
  unfold signup.
  rewrite (App_bind_Ok _ _ _ _ _ (find_user_if_db_None _)).
  cbn [truthy_doc]. unfold UserSchema.
  destruct (validate_email (su_email su)); by eexists.
Qed.

(** ** More on the normalizer *)

(** X16: the normalizer returns a document as it is exactly when the
    document has no [_id] field and no field holding a timestamp. *)
Theorem to_str_id_fixed_iff (d : doc) :
  to_str_id (Some d) = Some d <->
  d !! "_id" = None /\ forall k t, d !! k <> Some (VDatetime t).
Proof.
  rewrite to_str_id_Some. split.
  - intros [= Heq]. split.
    + rewrite <- Heq. apply normalize_raw.
    + intros k t Hk. rewrite <- Heq in Hk. rewrite lookup_fmap in Hk.
      destruct (rename_id d !! k) as [x|]; simpl in Hk; [|done].
      injection Hk as Hk. by apply render_not_datetime in Hk.
  - intros [Hid Hno]. f_equal. rewrite rename_id_fixed by done.
    apply map_eq. intros k. rewrite lookup_fmap.
    destruct (d !! k) as [[]|] eqn:E; try done. by destruct (Hno k t).
Qed.

(** X17: the fields of a normalized document are those of the input,
    with [_id] replaced by [id] when [_id] is present; no other field
    appears or disappears. *)
Theorem to_str_id_keys (d : doc) :
  exists out : doc,
    to_str_id (Some d) = Some out /\
    dom out = if decide (is_Some (d !! "_id"))
              then {["id"]} ∪ dom d ∖ {["_id"]}
              else dom d.
Proof.
  exists (render <$> rename_id d). split; [apply to_str_id_Some|].
  rewrite dom_fmap_L. unfold rename_id.
  destruct (d !! "_id") as [v|] eqn:E.
  - rewrite decide_True by eauto. by rewrite dom_insert_L, dom_delete_L.
  - rewrite decide_False; [done|]. by intros [? ?].
Qed.

(** X14: on a store that satisfies its invariant, [list_services]
    returns one document per stored service, in store order, and the
    i-th one carries the identifier of the i-th stored service as [id],
    in its 24-digit form, and no [_id]. *)
Theorem list_services_ids (st : store) :
  store_wf st ->
  exists out : list doc,
    list_services (Some st) = (Ok out, Some st) /\
    length out = length (collection st "service") /\
    forall i d, collection st "service" !! i = Some d ->
      exists (o : doc) (n : Z),
        out !! i = Some o /\ doc_oid d = Some n /\
        o !! "id" = Some (VStr (oid_str (Oid n))) /\
        String.length (oid_str (Oid n)) = 24 /\
        o !! "_id" = None.
Proof.
  intros Hwf. eexists. split; [apply list_services_run|].
  split; [by rewrite length_fmap|].
  intros i d Hd. apply store_wf_iff in Hwf as [_ Hids].
  destruct (Hids "service" d) as (n & Hn & _).
  { by apply list_elem_of_lookup_2 in Hd. }
  exists (render <$> rename_id d), n.
  split; [by rewrite list_lookup_fmap, Hd|]. split; [done|].
  unfold doc_oid in Hn.
  destruct (d !! "_id") as [[]|] eqn:Hid; try done.
  injection Hn as <-. destruct o as [m]. cbn [oid_num].
  split; [by rewrite (normalize_id d _ Hid)|].
  split; [|apply normalize_raw].
  unfold oid_str. by rewrite hex_pad_length.
Qed.

End Endpoint_facts.

Lemma create_service_refused_price_witness :
  @create_service plain_builtins
     (mkCreateService "NEG" "Refused" None (S754_finite true 4503599627370496 (-52)))
     (Some lab_store)
    = (Unhandled "ValidationError", Some lab_store).
Proof.
  assert (find lab_store "service" {["code" := VStr "NEG"]} = []) as Hf
    by (vm_compute; reflexivity).
  assert (SFleb (S754_zero false) (S754_finite true 4503599627370496 (-52)) = false)
    as Hp by (vm_compute; reflexivity).
  exact (@create_service_refused_price plain_builtins lab_store
           (mkCreateService "NEG" "Refused" None
              (S754_finite true 4503599627370496 (-52))) Hf Hp).
Defined.


Lemma create_payment_all_or_nothing_witness :
  store_wf lab_store /\
  match @create_payment plain_builtins (Datetime 2024 3 5 7 8 9 0)
          (mkCreatePayment "ana@x.com" "CBC") (Some lab_store) with
  | (Ok out, db') =>
      exists pay : Payment,
        db' = (create_document "payment" (dump_Payment pay) (Some lab_store)).2 /\
        p_status pay = "paid"
  | (_, db') => db' = Some lab_store
  end.
Proof.
  assert (store_wf lab_store) as Hwf by (vm_compute; reflexivity).
  split; [exact Hwf|].
  pose proof (@create_payment_all_or_nothing plain_builtins lab_store
                (Datetime 2024 3 5 7 8 9 0) (mkCreatePayment "ana@x.com" "CBC") Hwf)
    as Hthm.
  destruct (@create_payment plain_builtins (Datetime 2024 3 5 7 8 9 0)
              (mkCreatePayment "ana@x.com" "CBC") (Some lab_store))
    as [[out| | |] db']; try exact Hthm.
  destruct Hthm as (pay & Hdb & _ & Hst & _).
  exists pay. split; [exact Hdb | exact Hst].
Defined.

Lemma create_payment_bad_price_witness :
  @create_payment plain_builtins (Datetime 2024 3 5 7 8 9 0)
     (mkCreatePayment "ana@x.com" "CBC") (Some unpriced_store)
    = (Unhandled "KeyError", Some unpriced_store).
Proof.
  assert (store_wf unpriced_store) as Hwf by (vm_compute; reflexivity).
  assert (head (find unpriced_store "user" {["email" := VStr "ana@x.com"]}) = Some ana)
    as Hu by (vm_compute; reflexivity).
  assert (head (find unpriced_store "service" {["code" := VStr "CBC"]})
          = Some (<["_id" := VObjectId (Oid 1)]> (<["code" := VStr "CBC"]> ∅)))
    as Hsv by (vm_compute; reflexivity).
  assert ((<["_id" := VObjectId (Oid 1)]> (<["code" := VStr "CBC"]> ∅) : doc)
            !! "price" = None) as Hprice by (vm_compute; reflexivity).
  exact (proj1 (@create_payment_bad_price plain_builtins unpriced_store
                  (Datetime 2024 3 5 7 8 9 0) (mkCreatePayment "ana@x.com" "CBC")
                  ana _ Hwf Hu Hsv) Hprice).
Defined.


Lemma list_results_of_user_witness :
  exists out : list doc,
    @list_results plain_builtins (Some "ana@x.com") (Some lab_store)
      = (Ok out, Some lab_store) /\
    render <$> @rename_id plain_builtins ana_cbc_result ∈ out.
Proof.
  assert ("ana@x.com" <> "") as He by discriminate.
  assert (head (find lab_store "user" {["email" := VStr "ana@x.com"]}) = Some ana)
    as Hu by (vm_compute; reflexivity).
  assert (ana !! "_id" = Some (VObjectId (Oid 0))) as Hid
    by (vm_compute; reflexivity).
  destruct (@list_results_of_user plain_builtins lab_store "ana@x.com" ana
              (VObjectId (Oid 0)) He Hu Hid) as (out & Hrun & _ & Hall & _).
  exists out. split; [exact Hrun|]. apply Hall.
  - vm_compute. left.
  - vm_compute. reflexivity.
Defined.

Lemma list_services_ids_witness :
  exists out : list doc,
    @list_services plain_builtins (Some lab_store) = (Ok out, Some lab_store) /\
    length out = 1.
Proof.
  assert (store_wf lab_store) as Hwf by (vm_compute; reflexivity).
  destruct (@list_services_ids plain_builtins lab_store Hwf) as (out & Hrun & Hlen & _).
  exists out. split; [exact Hrun | exact Hlen].
Defined.

Lemma handlers_keep_invariant_witness :
  exists st',
    (@create_payment plain_builtins (Datetime 2024 3 5 7 8 9 0)
       (mkCreatePayment "ana@x.com" "CBC") (Some lab_store)).2 = Some st' /\
    store_wf st'.
Proof.
  assert (store_wf lab_store) as Hwf by (vm_compute; reflexivity).
  assert (next_oid lab_store + 1 < 2 ^ 96)%Z as Hroom by (vm_compute; reflexivity).
  exact (proj1 (proj2 (proj2
           (@handlers_keep_invariant plain_builtins lab_store
              (Datetime 2024 3 5 7 8 9 0)
              (mkSignupRequest "Bob" "bob@x.com" "pw2")
              (mkCreateService "LIP" "Lipid panel" None (S754_zero false))
              (mkCreatePayment "ana@x.com" "CBC")
              (mkCreateResult "ana@x.com" "CBC" [] None) Hwf Hroom)))).
Defined.

(** ** The diagnostic endpoint *)

Lemma utf8_take_length (n : nat) (s : string) : utf8_length (utf8_take n s) <= n.
Proof.
  revert n. induction s as [|c s IH]; intros n; simpl; [lia|].
  destruct (utf8_continuation c) eqn:E; simpl.
  - rewrite E. apply IH.
  - destruct n as [|n]; simpl; [lia|]. rewrite E. specialize (IH n). lia.
Qed.

Lemma utf8_take_prefix (n : nat) (s : string) :
  exists rest, s = utf8_take n s +:+ rest.
Proof.
  revert n. induction s as [|c s IH]; intros n; simpl; [by exists ""|].
  destruct (utf8_continuation c).
  - destruct (IH n) as [rest Hr]. exists rest.
    change (String c s = String c (utf8_take n s +:+ rest)). by f_equal.
  - destruct n as [|n]; [by eexists|].
    destruct (IH n) as [rest Hr]. exists rest.
    change (String c s = String c (utf8_take n s +:+ rest)). by f_equal.
Qed.

Lemma utf8_take_all (n : nat) (s : string) :
  utf8_length s <= n -> utf8_take n s = s.
Proof.
  revert n. induction s as [|c s IH]; intros n Hn; simpl in *; [done|].
  destruct (utf8_continuation c).
  - by rewrite IH.
  - destruct n as [|n]; [lia|]. rewrite IH; [done|lia].
Qed.

(** X18: whatever the handle and the environment, the [database_url]
    and [database_name] fields of the diagnostic answer are one of the
    two fixed strings, chosen by whether the variable is set to a
    non-empty string: the values written earlier from the handle,
    its name included, are overwritten. *)
Theorem test_database_env_only (db : option DatabaseHandle)
    (url name : option string) :
  test_database db url name !! "database_url"
    = Some (if truthy_str url then VStr "✅ Set" else VStr "❌ Not Set") /\
  test_database db url name !! "database_name"
    = Some (if truthy_str name then VStr "✅ Set" else VStr "❌ Not Set").
Proof.
  unfold test_database, env_status. split.
  - rewrite lookup_insert_ne by done. apply lookup_insert_eq.
  - apply lookup_insert_eq.
Qed.

(** X19: the diagnostic answer always has the same six fields, with
    [backend] "✅ Running"; [connection_status] is "Connected" exactly
    when a handle exists; [collections] lists at most the first ten
    collection names, and is empty when there is no handle or the
    listing raises. *)
Theorem test_database_shape (db : option DatabaseHandle)
    (url name : option string) :
  dom (test_database db url name)
    = list_to_set ["backend"; "database"; "database_url"; "database_name";
                   "connection_status"; "collections"] /\
  test_database db url name !! "backend" = Some (VStr "✅ Running") /\
  test_database db url name !! "connection_status"
    = Some (VStr (match db with
                  | Some _ => "Connected"
                  | None => "Not Connected"
                  end)) /\
  exists names : list string,
    test_database db url name !! "collections" = Some (VList (VStr <$> names)) /\
    length names <= 10 /\
    names = match db with
            | Some h => match list_collection_names h with
                        | inr all => take 10 all
                        | inl _ => []
                        end
            | None => []
            end.
Proof.
  unfold test_database.
  split; [|split; [|split]].
  - destruct db as [h|]; [destruct (list_collection_names h)|];
      rewrite !dom_insert_L, dom_empty_L; set_solver.
  - destruct db as [h|]; [destruct (list_collection_names h)|];
      repeat (rewrite lookup_insert_eq || rewrite lookup_insert_ne by done); done.
  - destruct db as [h|]; [destruct (list_collection_names h)|];
      repeat (rewrite lookup_insert_eq || rewrite lookup_insert_ne by done); done.
  - eexists. split; [|split; [|reflexivity]].
    + destruct db as [h|]; [destruct (list_collection_names h)|];
        repeat (rewrite lookup_insert_eq || rewrite lookup_insert_ne by done); done.
    + destruct db as [h|]; [destruct (list_collection_names h)|]; simpl; try lia.
      rewrite length_take. lia.
Qed.

(** X20: the [database] field tells the three situations apart: no
    handle, a handle whose listing works, and a handle whose listing
    raises; in the last case it shows at most the first 50 characters
    of the error text, and the whole text when it is that short. *)
Theorem test_database_status (db : option DatabaseHandle)
    (url name : option string) :
  match db with
  | None =>
      test_database db url name !! "database"
        = Some (VStr "⚠️  Available but not initialized")
  | Some h =>
      match list_collection_names h with
      | inr _ =>
          test_database db url name !! "database"
            = Some (VStr "✅ Connected & Working")
      | inl e =>
          exists shown rest : string,
            test_database db url name !! "database"
              = Some (VStr ("⚠️  Connected but Error: " +:+ shown)) /\
            e = shown +:+ rest /\
            utf8_length shown <= 50 /\
            (utf8_length e <= 50 -> shown = e)
      end
  end.
Proof.
  unfold test_database.
  destruct db as [h|]; [destruct (list_collection_names h) as [e|all]|].
  - destruct (utf8_take_prefix 50 e) as [rest Hrest].
    exists (utf8_take 50 e), rest.
    split; [|split; [done|split; [apply utf8_take_length|apply utf8_take_all]]].
    repeat (rewrite lookup_insert_eq || rewrite lookup_insert_ne by done). done.
  - repeat (rewrite lookup_insert_eq || rewrite lookup_insert_ne by done). done.
  - repeat (rewrite lookup_insert_eq || rewrite lookup_insert_ne by done). done.
Qed.
